(** * Task manager core: task repository, derived views and form validation

    Shallow embedding of the state core of the React task manager:
    - [TaskContext] : the provider's state transitions ([addTask],
      [toggleTask], [updateTask], [deleteTask], [clearCompleted]) and the
      derived views ([getFilteredTasks], [taskStats]);
    - [TaskItem]    : the due date classification [dueDateStatus];
    - [TaskForm]    : the form validation [validateForm].

    The task collection is the value held by [useLocalStorage('tasks', [])];
    every operation is the function handed to [setTasks], that is a
    transformer from the previous collection to the next one. *)

From Stdlib Require Import ZArith NArith List String Ascii Bool Lia DecimalString.
From stdpp Require Import base list.

Local Open Scope Z_scope.

(** ** JavaScript values used by the code *)

Module JS.

(** A JavaScript string is a sequence of UTF-16 code units; [length] counts
    code units. *)
Abbreviation jsstring := (list N).

(** A string literal of the source (ASCII only). *)
Fixpoint lit (s : string) : jsstring :=
  match s with
  | EmptyString => []
  | String c s' => N_of_ascii c :: lit s'
  end.

(** [a === b] on strings. *)
Fixpoint str_eqb (a b : jsstring) : bool :=
  match a, b with
  | [], [] => true
  | x :: a', y :: b' => N.eqb x y && str_eqb a' b'
  | _, _ => false
  end.

(** Truthiness of a string: only the empty string is falsy. *)
Definition truthy (s : jsstring) : bool :=
  match s with [] => false | _ :: _ => true end.

(** WhiteSpace and LineTerminator code points of ECMAScript, the characters
    removed by [String.prototype.trim]: TAB, LF, VT, FF, CR, SP, NBSP,
    U+1680, U+2000..U+200A, LS, PS, U+202F, U+205F, U+3000 and the BOM. *)
Definition is_space (c : N) : bool :=
  ((9 <=? c) && (c <=? 13) || (c =? 32) || (c =? 160) || (c =? 5760)
   || (8192 <=? c) && (c <=? 8202)
   || (c =? 8232) || (c =? 8233) || (c =? 8239) || (c =? 8287)
   || (c =? 12288) || (c =? 65279))%N.

Fixpoint trimStart (s : jsstring) : jsstring :=
  match s with
  | [] => []
  | c :: s' => if is_space c then trimStart s' else s
  end.

Definition trimEnd (s : jsstring) : jsstring := rev (trimStart (rev s)).

(** [s.trim()] *)
Definition trim (s : jsstring) : jsstring := trimEnd (trimStart s).

(** [a || b] where [a] is a string or [undefined]/[null] ([None]). *)
Definition or_else (a : option jsstring) (b : jsstring) : jsstring :=
  match a with
  | Some s => if truthy s then s else b
  | None => b
  end.

(** [a || null] where [a] is a string or [undefined]/[null]. *)
Definition or_null (a : option jsstring) : option jsstring :=
  match a with
  | Some s => if truthy s then Some s else None
  | None => None
  end.

(** Template interpolation of a non-negative integer: its decimal digits. *)
Definition Number_toString (n : Z) : jsstring :=
  lit (NilZero.string_of_uint (N.to_uint (Z.to_N n))).

(** Numbers that carry a fraction.  [Date.now()] is an integer number of
    milliseconds and [Math.random()] is a double in [0, 1); the engines
    return [k / 2^53] for an integer [0 <= k < 2^53].  The non-negative
    number [v] is represented by the integer [v * 2^53]. *)
Definition scale : Z := 2 ^ 53.

(** Rounding of the exact value [n / 2^53] to the nearest double (53
    significant bits, ties to even), as performed by [+] on numbers. *)
Definition round_to_double (n : Z) : Z :=
  let bits := Z.log2 n + 1 in
  if bits <=? 53 then n
  else
    let s := bits - 53 in
    let q := Z.shiftr n s in
    let r := Z.land n (Z.ones s) in
    let half := Z.shiftl 1 (s - 1) in
    let q' := if r <? half then q
              else if half <? r then q + 1
              else if Z.even q then q else q + 1 in
    Z.shiftl q' s.

(** [now + random] for [now = Date.now()] and [random = k / 2^53]. *)
Definition add_now_random (now k : Z) : Z :=
  round_to_double (now * scale + k).

(** [Math.ceil(a / b)] for integers [a] and [b > 0]. *)
Definition ceil_div (a b : Z) : Z := - ((- a) / b).

End JS.

Import JS.

(** ** The task entity *)

(** Instants written by [new Date().toISOString()] are represented by their
    epoch milliseconds (the ISO string of a valid date determines it);
    [null] is [None]. *)
Module Task.
Record t : Type := mk {
  id : Z;
  text : jsstring;
  description : jsstring;
  priority : jsstring;
  dueDate : option jsstring;
  completed : bool;
  createdAt : Z;
  completedAt : option Z
}.
End Task.

(** The [taskData] argument of [addTask]; an absent property is [None]. *)
Module Draft.
Record t : Type := mk {
  text : jsstring;
  description : option jsstring;
  priority : option jsstring;
  dueDate : option jsstring
}.
End Draft.

(** The [updates] argument of [updateTask]: any subset of the task's
    properties.  [None] means that the property is not in the object. *)
Module Patch.
Record t : Type := mk {
  id : option Z;
  text : option jsstring;
  description : option jsstring;
  priority : option jsstring;
  dueDate : option (option jsstring);
  completed : option bool;
  createdAt : option Z;
  completedAt : option (option Z)
}.

Definition empty : t := mk None None None None None None None None.
End Patch.

(** ** TaskContext: the repository *)

Module TaskContext.

(** What one call of [addTask] reads from its environment. *)
Record AddEnv : Type := mkAddEnv {
  Date_now : Z;       (* Date.now(), milliseconds *)
  Math_random : Z;    (* Math.random() = Math_random / 2^53 *)
  new_Date : Z        (* new Date(), for createdAt *)
}.

Definition newTask (env : AddEnv) (taskData : Draft.t) : Task.t :=
  {| Task.id := add_now_random (Date_now env) (Math_random env);
     Task.text := trim (Draft.text taskData);
     Task.description :=
       or_else (option_map trim (Draft.description taskData)) [];
     Task.priority := or_else (Draft.priority taskData) (lit "medium");
     Task.dueDate := or_null (Draft.dueDate taskData);
     Task.completed := false;
     Task.createdAt := new_Date env;
     Task.completedAt := None |}.

Definition addTask (env : AddEnv) (taskData : Draft.t)
    (prevTasks : list Task.t) : list Task.t :=
  prevTasks ++ [newTask env taskData].

(** The object built for the matching task in [toggleTask]; [now] is the
    instant read by [new Date()]. *)
Definition toggled (now : Z) (task : Task.t) : Task.t :=
  {| Task.id := Task.id task;
     Task.text := Task.text task;
     Task.description := Task.description task;
     Task.priority := Task.priority task;
     Task.dueDate := Task.dueDate task;
     Task.completed := negb (Task.completed task);
     Task.createdAt := Task.createdAt task;
     Task.completedAt :=
       if negb (Task.completed task) then Some now else None |}.

Definition toggleTask (now : Z) (id : Z) (prevTasks : list Task.t)
    : list Task.t :=
  map (fun task => if Task.id task =? id then toggled now task else task)
      prevTasks.

(** [{ ...task, ...updates }] *)
Definition merge (task : Task.t) (updates : Patch.t) : Task.t :=
  {| Task.id := default (Task.id task) (Patch.id updates);
     Task.text := default (Task.text task) (Patch.text updates);
     Task.description :=
       default (Task.description task) (Patch.description updates);
     Task.priority := default (Task.priority task) (Patch.priority updates);
     Task.dueDate := default (Task.dueDate task) (Patch.dueDate updates);
     Task.completed :=
       default (Task.completed task) (Patch.completed updates);
     Task.createdAt :=
       default (Task.createdAt task) (Patch.createdAt updates);
     Task.completedAt :=
       default (Task.completedAt task) (Patch.completedAt updates) |}.

Definition updateTask (id : Z) (updates : Patch.t)
    (prevTasks : list Task.t) : list Task.t :=
  map (fun task => if Task.id task =? id then merge task updates else task)
      prevTasks.

Definition deleteTask (id : Z) (prevTasks : list Task.t) : list Task.t :=
  List.filter (fun task => negb (Task.id task =? id)) prevTasks.

Definition clearCompleted (prevTasks : list Task.t) : list Task.t :=
  List.filter (fun task => negb (Task.completed task)) prevTasks.

Definition getFilteredTasks (tasks : list Task.t) (filter : jsstring)
    : list Task.t :=
  if str_eqb filter (lit "completed") then
    List.filter (fun task => Task.completed task) tasks
  else if str_eqb filter (lit "pending") then
    List.filter (fun task => negb (Task.completed task)) tasks
  else tasks.

Record Stats : Type := mkStats { total : nat; completedCount : nat; pending : nat }.

Definition taskStats (tasks : list Task.t) : Stats :=
  let total := length tasks in
  let completed := length (List.filter (fun task => Task.completed task) tasks) in
  {| total := total; completedCount := completed;
     pending := (total - completed)%nat |}.

(** One repository operation together with what it reads. *)
Inductive Op : Type :=
| OpAdd (env : AddEnv) (taskData : Draft.t)
| OpToggle (now : Z) (id : Z)
| OpUpdate (id : Z) (updates : Patch.t)
| OpDelete (id : Z)
| OpClear.

Definition step (op : Op) (prevTasks : list Task.t) : list Task.t :=
  match op with
  | OpAdd env taskData => addTask env taskData prevTasks
  | OpToggle now id => toggleTask now id prevTasks
  | OpUpdate id updates => updateTask id updates prevTasks
  | OpDelete id => deleteTask id prevTasks
  | OpClear => clearCompleted prevTasks
  end.

(** The operations are applied in order, starting from [tasks]. *)
Definition run (ops : list Op) (tasks : list Task.t) : list Task.t :=
  fold_left (fun ts op => step op ts) ops tasks.

(** A sequence of [addTask] calls. *)
Definition addTasks (calls : list (AddEnv * Draft.t)) (tasks : list Task.t)
    : list Task.t :=
  fold_left (fun ts c => addTask (fst c) (snd c) ts) calls tasks.

End TaskContext.

Import TaskContext.

(** ** TaskItem: due date status *)

Module TaskItem.

Inductive Status : Type := overdue | today | soon | later.

(** The object returned by [dueDateStatus]. *)
Record DueStatus : Type := mkDue {
  status : Status;
  label : jsstring;
  class : jsstring
}.

Definition msPerDay : Z := 1000 * 60 * 60 * 24.

(** [day${n !== 1 ? 's' : ''}] *)
Definition plural (n : Z) : jsstring :=
  lit " day" ++ (if negb (n =? 1) then lit "s" else []).

Section Engine.

(** The engine's date functions.  [Date_parse s] is the time value of
    [new Date(s)], [None] standing for [NaN] (an invalid date);
    [toLocaleDateString] formats a valid date, and an invalid one
    prints as "Invalid Date". *)
Variable Date_parse : jsstring -> option Z.
Variable toLocaleDateString : Z -> jsstring.

Definition Date_toLocaleDateString (d : option Z) : jsstring :=
  match d with
  | Some ms => toLocaleDateString ms
  | None => lit "Invalid Date"
  end.

(** [now] is the time value of [new Date()]. *)
Definition dueDateStatus (task : Task.t) (now : Z) : option DueStatus :=
  match Task.dueDate task with
  | None => None
  | Some s =>
      if negb (truthy s) then None
      else
        let dueDate := Date_parse s in
        let later_ :=
          Some {| status := later;
                  label := lit "Due " ++ Date_toLocaleDateString dueDate;
                  class := lit "due-upcoming" |} in
        match dueDate with
        | None => later_   (* every comparison with NaN is false *)
        | Some due =>
            let diffTime := due - now in
            let diffDays := ceil_div diffTime msPerDay in
            if diffDays <? 0 then
              Some {| status := overdue;
                      label := lit "Overdue by "
                               ++ Number_toString (Z.abs diffDays)
                               ++ plural (Z.abs diffDays);
                      class := lit "due-overdue" |}
            else if diffDays =? 0 then
              Some {| status := today;
                      label := lit "Due today";
                      class := lit "due-today" |}
            else if diffDays <=? 3 then
              Some {| status := soon;
                      label := lit "Due in " ++ Number_toString diffDays
                               ++ plural diffDays;
                      class := lit "due-upcoming" |}
            else later_
        end
  end.

End Engine.

End TaskItem.

(** ** TaskForm: validation *)

Module TaskForm.

(** The [formData] state: four strings, [''] when a field is not filled. *)
Record FormData : Type := mkForm {
  text : jsstring;
  description : jsstring;
  priority : jsstring;
  dueDate : jsstring
}.

(** The [errors] state, an object keyed by field. *)
Record Errors : Type := mkErrors {
  err_text : option jsstring;
  err_description : option jsstring;
  err_dueDate : option jsstring;
  err_submit : option jsstring
}.

Definition noErrors : Errors := mkErrors None None None None.

(** [Object.keys(errors).length] *)
Definition keys_length (e : Errors) : nat :=
  length (omap (fun x => x)
            [err_text e; err_description e; err_dueDate e; err_submit e]).

(** The component state read and written by [validateForm]. *)
Record State : Type := mkState {
  formData : FormData;
  errors : Errors
}.

Definition msPerDay : Z := 1000 * 60 * 60 * 24.

Section Engine.

(** [Date_parse] as in [TaskItem]; [tz] is the offset of local time
    from UTC in milliseconds (local = UTC + tz), taken as constant. *)
Variable Date_parse : jsstring -> option Z.
Variable tz : Z.

(** The local calendar day (days since the epoch) of an instant. *)
Definition localDay (ms : Z) : Z := (ms + tz) / msPerDay.

(** [d.setHours(0, 0, 0, 0)]: local midnight of the day of [d]. *)
Definition setHours0 (ms : Z) : Z := localDay ms * msPerDay - tz.

Definition text_error (fd : FormData) : option jsstring :=
  if negb (truthy (trim (text fd))) then
    Some (lit "Task title is required")
  else if (100 <? length (text fd))%nat then
    Some (lit "Title cannot exceed 100 characters")
  else None.

Definition description_error (fd : FormData) : option jsstring :=
  if truthy (description fd) && (300 <? length (description fd))%nat then
    Some (lit "Description cannot exceed 300 characters")
  else None.

Definition dueDate_error (fd : FormData) (now : Z) : option jsstring :=
  if truthy (dueDate fd) then
    let due := Date_parse (dueDate fd) in
    let today := setHours0 now in
    match due with
    | Some d =>
        if d <? today then Some (lit "Due date cannot be in the past")
        else None
    | None => None     (* NaN < today is false *)
    end
  else None.

(** [validateForm()] with the clock reading [now]: the returned boolean
    and the component state after [setErrors(newErrors)]. *)
Definition validateForm (now : Z) (st : State) : bool * State :=
  let fd := formData st in
  let newErrors :=
    {| err_text := text_error fd;
       err_description := description_error fd;
       err_dueDate := dueDate_error fd now;
       err_submit := None |} in
  (Nat.eqb (keys_length newErrors) 0,
   {| formData := formData st; errors := newErrors |}).

End Engine.

End TaskForm.

(** ** Notions used by the properties *)

(** [completedAt] is present exactly when [completed] is true. *)
Definition completion_consistent (t : Task.t) : Prop :=
  Task.completedAt t <> None <-> Task.completed t = true.

(** A patch respects the completion fields when it leaves both alone or
    sets both, the instant being present exactly for [completed: true]. *)
Definition patch_keeps_completion (p : Patch.t) : bool :=
  match Patch.completed p, Patch.completedAt p with
  | None, None => true
  | Some b, Some c => eqb (bool_decide (c <> None)) b
  | _, _ => false
  end.

Definition op_keeps_completion (op : Op) : bool :=
  match op with
  | OpUpdate _ p => patch_keeps_completion p
  | _ => true
  end.

Definition ids (ts : list Task.t) : list Z := map Task.id ts.

(** The identifiers computed by a sequence of [addTask] calls. *)
Definition generated (calls : list (AddEnv * Draft.t)) : list Z :=
  map (fun c => add_now_random (Date_now (fst c)) (Math_random (fst c))) calls.

(** The draft is valid: its title is not blank (what [validateForm] and the
    submit handler guarantee before [addTask] is called). *)
Definition valid_draft (d : Draft.t) : bool := truthy (trim (Draft.text d)).

(** The priority rule as the specification words it: one of the three
    levels is kept, anything else becomes medium. *)
Definition spec_priority (p : option jsstring) : jsstring :=
  match p with
  | Some s =>
      if str_eqb s (lit "low") || str_eqb s (lit "medium")
         || str_eqb s (lit "high")
      then s else lit "medium"
  | None => lit "medium"
  end.

(** ** Concrete inputs used by the examples below *)

Definition c1_env : AddEnv := mkAddEnv 1700000000000 0 1700000000000.
Definition c1_draft : Draft.t := Draft.mk (lit "Buy milk") None None None.
Definition c1_patch : Patch.t :=
  Patch.mk None None None None None (Some true) None None.
Definition c1_ops : list Op :=
  [OpAdd c1_env c1_draft; OpUpdate (1700000000000 * scale) c1_patch].

(** Two calls in the same millisecond whose random draws are 0.25 and
    0.25 + 2^-53. *)
Definition c2_env1 : AddEnv := mkAddEnv 1700000000000 (2 ^ 51) 1700000000000.
Definition c2_env2 : AddEnv := mkAddEnv 1700000000000 (2 ^ 51 + 1) 1700000000000.
Definition c2_draft1 : Draft.t := Draft.mk (lit "Buy milk") None None None.
Definition c2_draft2 : Draft.t := Draft.mk (lit "Walk the dog") None None None.
Definition c2_calls : list (AddEnv * Draft.t) :=
  [(c2_env1, c2_draft1); (c2_env2, c2_draft2)].
(** Two calls in the same millisecond with the same random draw. *)
Definition c2_calls_same : list (AddEnv * Draft.t) :=
  [(c2_env1, c2_draft1); (c2_env1, c2_draft2)].
(** Two calls one millisecond apart. *)
Definition c2_calls_apart : list (AddEnv * Draft.t) :=
  [(c2_env1, c2_draft1);
   (mkAddEnv 1700000000001 (2 ^ 51) 1700000000001, c2_draft2)].

Definition c3_draft : Draft.t :=
  Draft.mk (lit " Pay rent ") (Some (lit " by friday ")) (Some (lit "urgent"))
           (Some (lit "2030-01-15")).

(** A date parser that knows three date strings (UTC midnights). *)
Definition c4_parse (s : jsstring) : option Z :=
  if str_eqb s (lit "2023-11-13") then Some 1699833600000
  else if str_eqb s (lit "2023-11-14") then Some 1699920000000
  else if str_eqb s (lit "2023-11-16") then Some 1700092800000
  else if str_eqb s (lit "2030-01-15") then Some 1894665600000
  else None.
Definition c4_fmt (ms : Z) : jsstring := Number_toString ms.
(** 2023-11-14T22:13:20Z *)
Definition c4_now : Z := 1700000000000.
Definition c4_task (due : option jsstring) : Task.t :=
  Task.mk 1 (lit "Buy milk") [] (lit "medium") due false c4_now None.

(** A title of 101 spaces. *)
Definition c5_blank_form : TaskForm.FormData :=
  TaskForm.mkForm (repeat 32%N 101) [] (lit "medium") [].
Definition c5_state (fd : TaskForm.FormData) : TaskForm.State :=
  TaskForm.mkState fd TaskForm.noErrors.
Definition c5_good_form : TaskForm.FormData :=
  TaskForm.mkForm (lit "Buy milk") (lit "2 litres") (lit "high")
                  (lit "2030-01-15").
Definition c5_past_form : TaskForm.FormData :=
  TaskForm.mkForm (lit "Buy milk") [] (lit "medium") (lit "2023-11-13").

(** Every property of a task except the completion fields. *)
Definition same_but_completion (t t' : Task.t) : Prop :=
  Task.id t' = Task.id t
  /\ Task.text t' = Task.text t
  /\ Task.description t' = Task.description t
  /\ Task.priority t' = Task.priority t
  /\ Task.dueDate t' = Task.dueDate t
  /\ Task.createdAt t' = Task.createdAt t.

Definition is_pending (t : Task.t) : Prop := Task.completed t = false.
Definition is_completed (t : Task.t) : Prop := Task.completed t = true.

(** Putting the completed and the pending tasks back at their original
    positions: [flags] tells, position by position, from which of the two
    sequences the next task is taken. *)
Fixpoint interleave (flags : list bool) (cs ps : list Task.t) : list Task.t :=
  match flags with
  | [] => []
  | true :: flags' =>
      match cs with
      | c :: cs' => c :: interleave flags' cs' ps
      | [] => []
      end
  | false :: flags' =>
      match ps with
      | p :: ps' => p :: interleave flags' cs ps'
      | [] => []
      end
  end.

(** A task completed at 22:13:20.500, and a later clock reading. *)
Definition c6_task : Task.t :=
  Task.mk (1700000000000 * scale) (lit "Buy milk") [] (lit "medium") None
          true 1700000000000 (Some 1700000000500).
Definition c6_now : Z := 1700000009999.
Definition c6_pending : Task.t :=
  Task.mk (1700000000001 * scale) (lit "Walk the dog") [] (lit "low") None
          false 1700000000001 None.

(** ** TaskItem: creation date, re-render test *)

Module TaskItemView.

Definition msPerHour : Z := 1000 * 60 * 60.

Section Engine.

(** [Date_parse] as in [TaskItem]; [toLocaleDateString_enUS d y] is
    [d.toLocaleDateString('en-US', { month: 'short', day: 'numeric', year })]
    with [year = 'numeric'] when [y] is true and [undefined] otherwise;
    [getFullYear] is the local year of an instant. *)
Variable Date_parse : jsstring -> option Z.
Variable toLocaleDateString_enUS : Z -> bool -> jsstring.
Variable getFullYear : Z -> Z.

(** [formatDate(dateString)] at the clock reading [now].  The quotient
    [diffInHours] of two integer numbers of milliseconds is compared and
    floored exactly.  An invalid date makes every comparison false and is
    printed as "Invalid Date". *)
Definition formatDate (dateString : jsstring) (now : Z) : jsstring :=
  match Date_parse dateString with
  | None => lit "Invalid Date"
  | Some date =>
      let diff := now - date in
      if diff <? 1 * msPerHour then lit "Just now"
      else if diff <? 24 * msPerHour then
        Number_toString (diff / msPerHour) ++ lit " hour"
        ++ (if negb (diff / msPerHour =? 1) then lit "s" else [])
        ++ lit " ago"
      else
        toLocaleDateString_enUS date
          (negb (getFullYear date =? getFullYear now))
  end.

End Engine.

(** [a === b] where each side is a string or [null]. *)
Definition opt_str_eqb (a b : option jsstring) : bool :=
  match a, b with
  | Some x, Some y => str_eqb x y
  | None, None => true
  | _, _ => false
  end.

(** [a === b] where each side is an ISO instant or [null]. *)
Definition opt_time_eqb (a b : option Z) : bool :=
  match a, b with
  | Some x, Some y => x =? y
  | None, None => true
  | _, _ => false
  end.

(** The comparison function given to [React.memo]: when it returns true
    the item is not rendered again. *)
Definition arePropsEqual (prevTask nextTask : Task.t) : bool :=
  (Task.id prevTask =? Task.id nextTask)
  && str_eqb (Task.text prevTask) (Task.text nextTask)
  && str_eqb (Task.description prevTask) (Task.description nextTask)
  && str_eqb (Task.priority prevTask) (Task.priority nextTask)
  && opt_str_eqb (Task.dueDate prevTask) (Task.dueDate nextTask)
  && Bool.eqb (Task.completed prevTask) (Task.completed nextTask)
  && opt_time_eqb (Task.completedAt prevTask) (Task.completedAt nextTask).

End TaskItemView.

(** ** Filters: counts and the clear button *)

Module Filters.

(** The [key] and [count] of the three [filterOptions]. *)
Definition filterOptions (taskStats : Stats) : list (jsstring * nat) :=
  [(lit "all", total taskStats);
   (lit "pending", pending taskStats);
   (lit "completed", completedCount taskStats)].

(** [handleClearCompleted]; [confirm] is the answer to [window.confirm],
    which is asked only when some task is completed. *)
Definition handleClearCompleted (confirm : bool) (tasks : list Task.t)
    : list Task.t :=
  if (0 <? completedCount (taskStats tasks))%nat && confirm
  then clearCompleted tasks else tasks.

(** The clear button is rendered when [taskStats.completed > 0]. *)
Definition clearButtonShown (tasks : list Task.t) : bool :=
  (0 <? completedCount (taskStats tasks))%nat.

End Filters.

(** ** TaskForm: the handlers *)

Module TaskFormHandlers.

Import TaskForm.

(** The fields [handleInputChange] is called with. *)
Inductive Field : Type := FText | FDescription | FPriority | FDueDate.

(** [{ ...prev, [field]: value }] on the form data. *)
Definition set_field (prev : FormData) (field : Field) (value : jsstring)
    : FormData :=
  match field with
  | FText => mkForm value (description prev) (priority prev) (dueDate prev)
  | FDescription => mkForm (text prev) value (priority prev) (dueDate prev)
  | FPriority => mkForm (text prev) (description prev) value (dueDate prev)
  | FDueDate => mkForm (text prev) (description prev) (priority prev) value
  end.

(** [errors[field]]; no error is ever recorded under 'priority'. *)
Definition error_at (e : Errors) (field : Field) : option jsstring :=
  match field with
  | FText => err_text e
  | FDescription => err_description e
  | FPriority => None
  | FDueDate => err_dueDate e
  end.

(** [{ ...prev, [field]: '' }] on the errors. *)
Definition blank_error (prev : Errors) (field : Field) : Errors :=
  match field with
  | FText =>
      mkErrors (Some []) (err_description prev) (err_dueDate prev)
               (err_submit prev)
  | FDescription =>
      mkErrors (err_text prev) (Some []) (err_dueDate prev) (err_submit prev)
  | FPriority => prev
  | FDueDate =>
      mkErrors (err_text prev) (err_description prev) (Some [])
               (err_submit prev)
  end.

Definition handleInputChange (field : Field) (value : jsstring) (st : State)
    : State :=
  {| formData := set_field (formData st) field value;
     errors :=
       match error_at (errors st) field with
       | Some m => if truthy m then blank_error (errors st) field
                   else errors st
       | None => errors st
       end |}.

(** The whole state of the form component. *)
Record Component : Type := mkComponent {
  state : State;
  isSubmitting : bool;
  isExpanded : bool
}.

Definition initialForm : FormData := mkForm [] [] (lit "medium") [].

Definition initialComponent : Component :=
  mkComponent (mkState initialForm noErrors) false false.

(** The [disabled] attribute of the submit button. *)
Definition submitDisabled (c : Component) : bool :=
  negb (truthy (trim (text (formData (state c)))))
  || isSubmitting c
  || (0 <? keys_length (errors (state c)))%nat.

(** The object handed to [addTask] by [handleSubmit]. *)
Definition submitted (fd : FormData) : Draft.t :=
  {| Draft.text := trim (text fd);
     Draft.description := Some (trim (description fd));
     Draft.priority := Some (priority fd);
     Draft.dueDate := or_null (Some (dueDate fd)) |}.

Definition handleClear (c : Component) : Component :=
  mkComponent (mkState initialForm noErrors) (isSubmitting c) false.

Section Engine.

Variable Date_parse : jsstring -> option Z.
Variable tz : Z.

(** [handleSubmit]: the state of the form and of the repository once the
    handler has run to its end ([now] is read by [validateForm], [env] by
    [addTask]; the pause before [addTask] is left out, the handler works on
    the form data it was created with). *)
Definition handleSubmit (now : Z) (env : AddEnv) (c : Component)
    (tasks : list Task.t) : Component * list Task.t :=
  let (valid, st') := validateForm Date_parse tz now (state c) in
  if negb valid then
    (mkComponent st' (isSubmitting c) (isExpanded c), tasks)
  else
    (mkComponent (mkState initialForm (errors st')) false false,
     addTask env (submitted (formData (state c))) tasks).

End Engine.

(** [String(n).padStart(2, '0')] *)
Definition padStart2 (n : Z) : jsstring :=
  repeat 48%N (2 - length (Number_toString n)) ++ Number_toString n.

(** [getTodayDate()] from the local year, month index and day of today. *)
Definition getTodayDate (getFullYear getMonth getDate : Z) : jsstring :=
  Number_toString getFullYear ++ lit "-" ++ padStart2 (getMonth + 1)
  ++ lit "-" ++ padStart2 getDate.

End TaskFormHandlers.

(** ** Further notions used by the properties *)

(** No whitespace at the start of the string. *)
Definition no_leading_space (s : jsstring) : Prop :=
  match s with
  | [] => True
  | c :: _ => is_space c = false
  end.

(** The string consists of whitespace only. *)
Definition all_space (s : jsstring) : Prop :=
  Forall (fun c => is_space c = true) s.

(** [{ ...p1, ...p2 }] on patches. *)
Definition patch_then (p1 p2 : Patch.t) : Patch.t :=
  {| Patch.id := from_option Some (Patch.id p1) (Patch.id p2);
     Patch.text := from_option Some (Patch.text p1) (Patch.text p2);
     Patch.description :=
       from_option Some (Patch.description p1) (Patch.description p2);
     Patch.priority := from_option Some (Patch.priority p1) (Patch.priority p2);
     Patch.dueDate := from_option Some (Patch.dueDate p1) (Patch.dueDate p2);
     Patch.completed :=
       from_option Some (Patch.completed p1) (Patch.completed p2);
     Patch.createdAt :=
       from_option Some (Patch.createdAt p1) (Patch.createdAt p2);
     Patch.completedAt :=
       from_option Some (Patch.completedAt p1) (Patch.completedAt p2) |}.

(** The task with another creation instant. *)
Definition with_createdAt (t : Task.t) (c : Z) : Task.t :=
  Task.mk (Task.id t) (Task.text t) (Task.description t) (Task.priority t)
          (Task.dueDate t) (Task.completed t) c (Task.completedAt t).

(** An operation can be applied without creating a duplicate id: an added
    task gets an id not yet present, a patch leaves the id alone. *)
Definition op_keeps_ids (op : Op) (ts : list Task.t) : Prop :=
  match op with
  | OpAdd env _ =>
      ~ In (add_now_random (Date_now env) (Math_random env)) (ids ts)
  | OpUpdate _ p => Patch.id p = None
  | _ => True
  end.

(** A sequence of edits of the form: [handleInputChange] calls. *)
Definition edit (edits : list (TaskFormHandlers.Field * jsstring))
    (c : TaskFormHandlers.Component) : TaskFormHandlers.Component :=
  fold_left
    (fun c e =>
       TaskFormHandlers.mkComponent
         (TaskFormHandlers.handleInputChange (fst e) (snd e)
            (TaskFormHandlers.state c))
         (TaskFormHandlers.isSubmitting c) (TaskFormHandlers.isExpanded c))
    edits c.

Definition x_fmt_enUS (ms : Z) (year : bool) : jsstring :=
  Number_toString ms ++ (if year then lit " y" else []).
Definition x_year (ms : Z) : Z := 1970 + ms / (365 * TaskItem.msPerDay).
Definition x_past_component : TaskFormHandlers.Component :=
  TaskFormHandlers.mkComponent (c5_state c5_past_form) false true.
Definition x_good_component : TaskFormHandlers.Component :=
  TaskFormHandlers.mkComponent (c5_state c5_good_form) false true.

(** ** TaskList: what is shown *)

Module TaskList.

(** [filteredTasks], the memoised [getFilteredTasks(filter)]. *)
Definition filteredTasks (tasks : list Task.t) (filter : jsstring)
    : list Task.t :=
  getFilteredTasks tasks filter.

(** The empty state is rendered when [filteredTasks.length === 0]. *)
Definition showsEmptyState (tasks : list Task.t) (filter : jsstring) : bool :=
  Nat.eqb (length (filteredTasks tasks filter)) 0.

(** The two numbers of "Showing n of m total tasks". *)
Definition showing (tasks : list Task.t) (filter : jsstring) : nat * nat :=
  (length (filteredTasks tasks filter), total (taskStats tasks)).

End TaskList.

Example lit_medium : lit "medium" = [109; 101; 100; 105; 117; 109]%N.
Proof. reflexivity. Qed.

Example trim_ex : trim (lit "  Buy milk ") = lit "Buy milk".
Proof. reflexivity. Qed.

Example number_ex : Number_toString 12 = lit "12".
Proof. reflexivity. Qed.

Example round_ex :
  add_now_random 1700000000000 0 = add_now_random 1700000000000 1.
Proof. vm_compute. reflexivity. Qed.

Example round_half :
  add_now_random 1700000000000 (2 ^ 52) = 1700000000000 * scale + 2 ^ 52.
Proof. vm_compute. reflexivity. Qed.

(** ** Strings *)

Lemma str_eqb_eq (a b : jsstring) : str_eqb a b = true <-> a = b.
Proof.
  revert b; induction a as [|x a IH]; intros [|y b]; simpl; try easy.
  rewrite andb_true_iff, N.eqb_eq, IH. split.
  - intros [-> ->]; reflexivity.
  - intros [= -> ->]; auto.
Qed.

Lemma str_eqb_neq (a b : jsstring) : str_eqb a b = false <-> a <> b.
Proof.
  rewrite <- str_eqb_eq. destruct (str_eqb a b); split; congruence.
Qed.

Lemma truthy_false (s : jsstring) : truthy s = false <-> s = [].
Proof. destruct s; simpl; split; congruence. Qed.

Lemma truthy_true (s : jsstring) : truthy s = true <-> s <> [].
Proof. destruct s; simpl; split; congruence. Qed.

(** ** C1: the completion invariant *)

Lemma toggled_consistent now t : completion_consistent (toggled now t).
Proof.
  unfold completion_consistent, toggled; simpl.
  destruct (Task.completed t); simpl; split; congruence.
Qed.

Lemma merge_consistent t p :
  patch_keeps_completion p = true ->
  completion_consistent t -> completion_consistent (merge t p).
Proof.
  unfold patch_keeps_completion, completion_consistent, merge; simpl.
  destruct (Patch.completed p) as [b|], (Patch.completedAt p) as [c|];
    simpl; try discriminate; auto.
  intros H _. apply eqb_prop in H. subst b.
  rewrite bool_decide_eq_true. reflexivity.
Qed.

Lemma step_consistent op ts :
  op_keeps_completion op = true ->
  Forall completion_consistent ts -> Forall completion_consistent (step op ts).
Proof.
  intros Hop Hts. destruct op as [env d|now i|i p| i |]; simpl in *.
  - unfold addTask. apply Forall_app; split; [assumption|].
    constructor; [|constructor].
    unfold completion_consistent; simpl; split; congruence.
  - unfold toggleTask. induction Hts as [|t ts Ht _ IH]; simpl; constructor; auto.
    destruct (Task.id t =? i); auto using toggled_consistent.
  - unfold updateTask. induction Hts as [|t ts Ht _ IH]; simpl; constructor; auto.
    destruct (Task.id t =? i); auto using merge_consistent.
  - unfold deleteTask. induction Hts as [|t ts Ht _ IH]; simpl; [constructor|].
    destruct (negb (Task.id t =? i)); auto.
  - unfold clearCompleted. induction Hts as [|t ts Ht _ IH]; simpl; [constructor|].
    destruct (negb (Task.completed t)); auto.
Qed.

Lemma run_consistent ops : forall ts,
  forallb op_keeps_completion ops = true ->
  Forall completion_consistent ts -> Forall completion_consistent (run ops ts).
Proof.
  unfold run. induction ops as [|op ops IH]; simpl; intros ts Hops Hts; auto.
  apply andb_true_iff in Hops as [Hop Hops].
  apply IH; auto using step_consistent.
Qed.

(** C1, as stated, fails: after [addTask] and [updateTask(id, {completed:
    true})] the task is completed and its [completedAt] is still [null]. *)
Lemma completion_invariant_counterexample :
  run c1_ops [] =
    [Task.mk (1700000000000 * scale) (lit "Buy milk") [] (lit "medium") None
             true 1700000000000 None]
  /\ ~ Forall completion_consistent (run c1_ops []).
Proof.
  split; [vm_compute; reflexivity|].
  intros H. apply Forall_inv in H. vm_compute in H.
  destruct H as [_ H]. apply H; reflexivity.
Qed.

(** C1 (amended): in every state reachable from the empty collection by
    [addTask], [toggleTask], [deleteTask], [clearCompleted] and by
    [updateTask] calls whose patch leaves [completed] and [completedAt]
    alone or sets both consistently, every task has [completedAt] non-null
    if and only if [completed] is true. *)
Theorem completion_invariant (ops : list Op) :
  forallb op_keeps_completion ops = true ->
  Forall completion_consistent (run ops []).
Proof.
  intros Hops. apply run_consistent; [assumption|constructor].
Qed.

Lemma completion_invariant_witness :
  Forall completion_consistent
    (run [OpAdd c1_env c1_draft; OpToggle 1700000000500 (1700000000000 * scale);
          OpUpdate (1700000000000 * scale)
            (Patch.mk None (Some (lit "Buy oat milk")) None None None None None None);
          OpAdd c2_env2 c2_draft2] []).
Proof.
  apply completion_invariant. reflexivity.
Defined.

(** ** C2: length and identifiers after a sequence of [addTask] calls *)

Lemma addTasks_snoc calls c ts :
  addTasks (calls ++ [c]) ts = addTask (fst c) (snd c) (addTasks calls ts).
Proof. unfold addTasks. rewrite fold_left_app. reflexivity. Qed.

Lemma length_addTasks calls : forall ts,
  length (addTasks calls ts) = (length ts + length calls)%nat.
Proof.
  induction calls as [|c calls IH]; intros ts; simpl.
  - lia.
  - change (addTasks (c :: calls) ts)
      with (addTasks calls (addTask (fst c) (snd c) ts)).
    rewrite IH. unfold addTask. rewrite length_app. simpl. lia.
Qed.

Lemma ids_addTasks calls : forall ts,
  ids (addTasks calls ts) = ids ts ++ generated calls.
Proof.
  induction calls as [|c calls IH]; intros ts; simpl.
  - rewrite app_nil_r. reflexivity.
  - change (addTasks (c :: calls) ts)
      with (addTasks calls (addTask (fst c) (snd c) ts)).
    rewrite IH. unfold addTask, ids. rewrite map_app, <- app_assoc.
    reflexivity.
Qed.

(** The existing tasks are a prefix of the result. *)
Lemma addTasks_prefix calls : forall ts,
  exists added, addTasks calls ts = ts ++ added.
Proof.
  induction calls as [|c calls IH]; intros ts.
  - exists []. simpl. rewrite app_nil_r. reflexivity.
  - destruct (IH (addTask (fst c) (snd c) ts)) as [added H].
    exists (newTask (fst c) (snd c) :: added).
    change (addTasks (c :: calls) ts)
      with (addTasks calls (addTask (fst c) (snd c) ts)).
    rewrite H. unfold addTask. rewrite <- app_assoc. reflexivity.
Qed.

(** C2, as stated, fails: two valid drafts added in the same millisecond
    get the same identifier when the two random draws are equal, and also
    when they differ by less than the spacing of doubles near the clock
    value (here 0.25 and 0.25 + 2^-53). *)
Lemma addTasks_unique_ids_counterexample :
  forallb valid_draft (map snd c2_calls) = true
  /\ NoDup (ids [])
  /\ ids (addTasks c2_calls []) =
       [1700000000000 * scale + 2 ^ 51; 1700000000000 * scale + 2 ^ 51]
  /\ ~ NoDup (ids (addTasks c2_calls []))
  /\ ~ NoDup (ids (addTasks c2_calls_same [])).
Proof.
  split; [reflexivity|]. split; [constructor|].
  split; [vm_compute; reflexivity|].
  split; intros H; vm_compute in H;
    apply NoDup_cons in H as [H _]; apply H; left.
Qed.

(** C2 (amended): for every sequence of [addTask] calls starting from a
    collection with pairwise distinct ids, the length of the result is the
    starting length plus the number of calls, and the ids of the result are
    pairwise distinct exactly when the values [Date.now() + Math.random()]
    computed by the calls are pairwise distinct and differ from every id
    already present. *)
Theorem addTasks_length_ids (calls : list (AddEnv * Draft.t))
    (ts : list Task.t) :
  NoDup (ids ts) ->
  length (addTasks calls ts) = (length ts + length calls)%nat
  /\ (NoDup (ids (addTasks calls ts)) <->
      NoDup (generated calls)
      /\ forall i, In i (generated calls) -> ~ In i (ids ts)).
Proof.
  intros Hts. split; [apply length_addTasks|].
  rewrite ids_addTasks, NoDup_app. split.
  - intros (_ & Hdisj & Hgen). split; [assumption|].
    intros i Hi Hin. apply (Hdisj i); apply list_elem_of_In; assumption.
  - intros [Hgen Hdisj]. split; [assumption|]. split; [|assumption].
    intros i Hin Hi. apply (Hdisj i); apply list_elem_of_In; assumption.
Qed.

Lemma addTasks_length_ids_witness :
  length (addTasks c2_calls_apart []) = 2%nat
  /\ NoDup (ids (addTasks c2_calls_apart [])).
Proof.
  destruct (addTasks_length_ids c2_calls_apart [] (NoDup_nil_2 (A:=Z)))
    as [Hlen Hids].
  split; [exact Hlen|]. apply Hids. split.
  - vm_compute. repeat constructor; rewrite ?list_elem_of_In; simpl; lia.
  - intros i _ [].
Defined.

(** ** C3: the task built by [addTask] *)

(** C3, as stated, fails on the priority: a priority outside
    {low, medium, high} is stored as given, not replaced by medium. *)
Lemma addTask_priority_counterexample :
  Task.priority (newTask c1_env c3_draft) = lit "urgent"
  /\ spec_priority (Draft.priority c3_draft) = lit "medium"
  /\ exists t, addTask c1_env c3_draft [] = [t]
       /\ Task.priority t <> spec_priority (Draft.priority c3_draft).
Proof.
  split; [reflexivity|]. split; [reflexivity|].
  eexists; split; [reflexivity|]. vm_compute. discriminate.
Qed.

(** C3 (amended): [addTask(draft)] appends exactly one task at the end of
    the sequence and leaves the existing tasks unchanged in order and
    content; the new task has the trimmed text, the trimmed description
    (empty when absent), [priority = draft.priority] whenever that is a
    non-empty string (so low, medium and high are kept, and so is any other
    non-empty string) and medium when it is absent or empty,
    [dueDate = draft.dueDate] when that is a non-empty string and [null]
    otherwise, [completed = false] and [completedAt = null]. *)
Theorem addTask_appends (env : AddEnv) (draft : Draft.t) (ts : list Task.t) :
  exists t,
    addTask env draft ts = ts ++ [t]
    /\ Task.text t = trim (Draft.text draft)
    /\ Task.description t =
         match Draft.description draft with
         | Some s => trim s
         | None => []
         end
    /\ (forall p, Draft.priority draft = Some p -> p <> [] ->
          Task.priority t = p)
    /\ (Draft.priority draft = None \/ Draft.priority draft = Some [] ->
          Task.priority t = lit "medium")
    /\ (forall s, Draft.dueDate draft = Some s -> s <> [] ->
          Task.dueDate t = Some s)
    /\ (Draft.dueDate draft = None \/ Draft.dueDate draft = Some [] ->
          Task.dueDate t = None)
    /\ Task.completed t = false
    /\ Task.completedAt t = None
    /\ Task.id t = add_now_random (Date_now env) (Math_random env)
    /\ Task.createdAt t = new_Date env.
Proof.
  exists (newTask env draft). split; [reflexivity|]. simpl.
  split; [reflexivity|]. split.
  { destruct (Draft.description draft) as [s|]; simpl; [|reflexivity].
    destruct (trim s); reflexivity. }
  split.
  { intros p -> Hp. simpl. apply truthy_true in Hp. rewrite Hp. reflexivity. }
  split.
  { intros [-> | ->]; reflexivity. }
  split.
  { intros s -> Hs. simpl. apply truthy_true in Hs. rewrite Hs. reflexivity. }
  split.
  { intros [-> | ->]; reflexivity. }
  repeat split.
Qed.

Lemma addTask_appends_witness :
  exists t, addTask c1_env c3_draft [newTask c2_env1 c2_draft1]
            = [newTask c2_env1 c2_draft1] ++ [t]
    /\ Task.text t = lit "Pay rent"
    /\ Task.description t = lit "by friday"
    /\ Task.priority t = lit "urgent"
    /\ Task.dueDate t = Some (lit "2030-01-15").
Proof.
  destruct (addTask_appends c1_env c3_draft [newTask c2_env1 c2_draft1])
    as (t & Happ & Htext & Hdesc & Hprio & _ & Hdue & _).
  exists t. split; [exact Happ|]. split; [exact Htext|].
  split; [exact Hdesc|]. split.
  - apply Hprio; [reflexivity|discriminate].
  - apply Hdue; [reflexivity|discriminate].
Defined.

(** ** C4: due date status *)

Lemma ceil_div_spec a b :
  0 < b -> b * (ceil_div a b - 1) < a <= b * ceil_div a b.
Proof.
  intros Hb. unfold ceil_div.
  pose proof (Z.mul_div_le (- a) b Hb).
  pose proof (Z.mul_succ_div_gt (- a) b Hb). lia.
Qed.

Lemma ceil_div_unique a b d :
  0 < b -> b * (d - 1) < a <= b * d -> ceil_div a b = d.
Proof.
  intros Hb H. pose proof (ceil_div_spec a b Hb). nia.
Qed.

(** C4: [dueDateStatus] produces nothing when [dueDate] is unset; for a due
    date that denotes the instant [due] it classifies by the whole-day
    difference [d = ceiling((due - now) / one day)]: overdue with count [|d|]
    when [d < 0], due today when [d = 0], due in [d] days when [0 < d <= 3],
    the formatted date when [d > 3], the word "day" taking an "s" unless the
    count is 1; a due date one day before [now] (more generally, at least one
    and less than two days before) is overdue by 1 day. *)
Theorem dueDateStatus_classifies (Date_parse : jsstring -> option Z)
    (toLocaleDateString : Z -> jsstring) (task : Task.t) (now : Z) :
  let result := TaskItem.dueDateStatus Date_parse toLocaleDateString task now in
  (Task.dueDate task = None -> result = None)
  /\ (forall s due,
        Task.dueDate task = Some s -> s <> [] -> Date_parse s = Some due ->
        exists d,
          TaskItem.msPerDay * (d - 1) < due - now <= TaskItem.msPerDay * d
          /\ (d < 0 ->
              result = Some (TaskItem.mkDue TaskItem.overdue
                (lit "Overdue by " ++ Number_toString (Z.abs d) ++ lit " day"
                 ++ (if Z.abs d =? 1 then [] else lit "s"))
                (lit "due-overdue")))
          /\ (d = 0 ->
              result = Some (TaskItem.mkDue TaskItem.today
                (lit "Due today") (lit "due-today")))
          /\ (0 < d <= 3 ->
              result = Some (TaskItem.mkDue TaskItem.soon
                (lit "Due in " ++ Number_toString d ++ lit " day"
                 ++ (if d =? 1 then [] else lit "s"))
                (lit "due-upcoming")))
          /\ (3 < d ->
              result = Some (TaskItem.mkDue TaskItem.later
                (lit "Due " ++ toLocaleDateString due) (lit "due-upcoming"))))
  /\ (forall s due,
        Task.dueDate task = Some s -> s <> [] -> Date_parse s = Some due ->
        now - 2 * TaskItem.msPerDay < due <= now - TaskItem.msPerDay ->
        result = Some (TaskItem.mkDue TaskItem.overdue
                         (lit "Overdue by 1 day") (lit "due-overdue"))).
Proof.
  assert (HD : 0 < TaskItem.msPerDay) by reflexivity.
  assert (Hgen : forall s due,
    Task.dueDate task = Some s -> s <> [] -> Date_parse s = Some due ->
    TaskItem.dueDateStatus Date_parse toLocaleDateString task now =
      let d := ceil_div (due - now) TaskItem.msPerDay in
      if d <? 0 then
        Some (TaskItem.mkDue TaskItem.overdue
                (lit "Overdue by " ++ Number_toString (Z.abs d) ++ lit " day"
                 ++ (if Z.abs d =? 1 then [] else lit "s"))
                (lit "due-overdue"))
      else if d =? 0 then
        Some (TaskItem.mkDue TaskItem.today (lit "Due today") (lit "due-today"))
      else if d <=? 3 then
        Some (TaskItem.mkDue TaskItem.soon
                (lit "Due in " ++ Number_toString d ++ lit " day"
                 ++ (if d =? 1 then [] else lit "s"))
                (lit "due-upcoming"))
      else
        Some (TaskItem.mkDue TaskItem.later
                (lit "Due " ++ toLocaleDateString due) (lit "due-upcoming"))).
  { intros s due Hs Hne Hp. unfold TaskItem.dueDateStatus.
    rewrite Hs. apply truthy_true in Hne. rewrite Hne. simpl negb. cbv iota.
    rewrite Hp. cbv zeta. unfold TaskItem.plural.
    destruct (Z.abs (ceil_div (due - now) TaskItem.msPerDay) =? 1);
      destruct (ceil_div (due - now) TaskItem.msPerDay =? 1); reflexivity. }
  intros result. subst result. split; [|split].
  - intros Hnone. unfold TaskItem.dueDateStatus. rewrite Hnone. reflexivity.
  - intros s due Hs Hne Hp. rewrite (Hgen s due Hs Hne Hp). cbv zeta.
    exists (ceil_div (due - now) TaskItem.msPerDay).
    split; [apply ceil_div_spec; assumption|].
    set (d := ceil_div (due - now) TaskItem.msPerDay).
    destruct (Z.ltb_spec d 0); [repeat split; intros; try lia; reflexivity|].
    destruct (Z.eqb_spec d 0); [repeat split; intros; try lia; reflexivity|].
    destruct (Z.leb_spec d 3); repeat split; intros; try lia; reflexivity.
  - intros s due Hs Hne Hp Hrange. rewrite (Hgen s due Hs Hne Hp). cbv zeta.
    rewrite (ceil_div_unique (due - now) TaskItem.msPerDay (-1) HD) by lia.
    reflexivity.
Qed.

Lemma dueDateStatus_classifies_witness :
  TaskItem.dueDateStatus c4_parse c4_fmt (c4_task None) c4_now = None
  /\ TaskItem.dueDateStatus c4_parse c4_fmt
       (c4_task (Some (lit "2023-11-13"))) c4_now
     = Some (TaskItem.mkDue TaskItem.overdue (lit "Overdue by 1 day")
               (lit "due-overdue"))
  /\ TaskItem.dueDateStatus c4_parse c4_fmt
       (c4_task (Some (lit "2023-11-16"))) c4_now
     = Some (TaskItem.mkDue TaskItem.soon (lit "Due in 2 days")
               (lit "due-upcoming")).
Proof.
  split; [|split].
  - apply (proj1 (dueDateStatus_classifies c4_parse c4_fmt (c4_task None)
                    c4_now)). reflexivity.
  - apply (proj2 (proj2 (dueDateStatus_classifies c4_parse c4_fmt
                           (c4_task (Some (lit "2023-11-13"))) c4_now))
             (lit "2023-11-13") 1699833600000);
      [reflexivity | discriminate | reflexivity | vm_compute; split; congruence].
  - destruct (proj1 (proj2 (dueDateStatus_classifies c4_parse c4_fmt
                              (c4_task (Some (lit "2023-11-16"))) c4_now))
                (lit "2023-11-16") 1700092800000)
      as (d & Hd & _ & _ & Hsoon & _);
      [reflexivity | discriminate | reflexivity |].
    assert (d = 2) as -> by (unfold TaskItem.msPerDay, c4_now in Hd; lia).
    apply Hsoon. lia.
Defined.

(** ** C5: form validation *)

Lemma setHours0_lt tz due now :
  (due <? TaskForm.setHours0 tz now) = true
  <-> TaskForm.localDay tz due < TaskForm.localDay tz now.
Proof.
  unfold TaskForm.setHours0, TaskForm.localDay.
  assert (HD : 0 < TaskForm.msPerDay) by reflexivity.
  rewrite Z.ltb_lt. split; intros H.
  - apply Z.div_lt_upper_bound; [assumption|]. lia.
  - pose proof (Z.mul_succ_div_gt (due + tz) TaskForm.msPerDay HD). nia.
Qed.

(** C5, as stated, fails on the title length: a title of 101 spaces is
    longer than the maximum, and the error reported on it is "required",
    not "too long". *)
Lemma validateForm_too_long_counterexample :
  let e := TaskForm.errors
             (snd (TaskForm.validateForm c4_parse 0 c4_now
                     (c5_state c5_blank_form))) in
  (length (TaskForm.text c5_blank_form) > 100)%nat
  /\ TaskForm.err_text e = Some (lit "Task title is required")
  /\ ~ (TaskForm.err_text e = Some (lit "Title cannot exceed 100 characters")
        <-> (length (TaskForm.text c5_blank_form) > 100)%nat).
Proof.
  cbv zeta. split; [vm_compute; lia|]. split; [reflexivity|].
  intros [_ H]. assert (Hlen : (length (TaskForm.text c5_blank_form) > 100)%nat)
    by (vm_compute; lia).
  specialize (H Hlen). vm_compute in H. discriminate.
Qed.

(** C5 (amended): validation reports "required" on the title if and only if
    it is empty or blank after trimming; "too long" on the title if and only
    if it is not blank and longer than 100 code units; "too long" on the
    description if and only if it is longer than 300; "cannot be in the
    past" on the due date if and only if the field is filled, denotes a
    valid instant, and the local calendar day of that instant is strictly
    before today's (time of day ignored); no other error is reported, the
    result is true exactly when the error set is empty, and the form data is
    not changed. *)
Theorem validateForm_reports (Date_parse : jsstring -> option Z) (tz now : Z)
    (st : TaskForm.State) :
  let fd := TaskForm.formData st in
  let r := TaskForm.validateForm Date_parse tz now st in
  let e := TaskForm.errors (snd r) in
  (TaskForm.err_text e = Some (lit "Task title is required")
     <-> trim (TaskForm.text fd) = [])
  /\ (TaskForm.err_text e = Some (lit "Title cannot exceed 100 characters")
     <-> trim (TaskForm.text fd) <> []
         /\ (length (TaskForm.text fd) > 100)%nat)
  /\ (TaskForm.err_text e = None
     <-> trim (TaskForm.text fd) <> []
         /\ (length (TaskForm.text fd) <= 100)%nat)
  /\ (TaskForm.err_description e
        = Some (lit "Description cannot exceed 300 characters")
     <-> (length (TaskForm.description fd) > 300)%nat)
  /\ (TaskForm.err_description e = None
     <-> (length (TaskForm.description fd) <= 300)%nat)
  /\ (TaskForm.err_dueDate e = Some (lit "Due date cannot be in the past")
     <-> exists due, TaskForm.dueDate fd <> []
           /\ Date_parse (TaskForm.dueDate fd) = Some due
           /\ TaskForm.localDay tz due < TaskForm.localDay tz now)
  /\ (TaskForm.err_dueDate e = None
     <-> ~ exists due, TaskForm.dueDate fd <> []
           /\ Date_parse (TaskForm.dueDate fd) = Some due
           /\ TaskForm.localDay tz due < TaskForm.localDay tz now)
  /\ TaskForm.err_submit e = None
  /\ (fst r = true <-> e = TaskForm.noErrors)
  /\ TaskForm.formData (snd r) = TaskForm.formData st.
Proof.
  cbv zeta. unfold TaskForm.validateForm.
  cbn [fst snd TaskForm.errors TaskForm.formData TaskForm.err_text
       TaskForm.err_description TaskForm.err_dueDate TaskForm.err_submit].
  set (fd := TaskForm.formData st).
  assert (Hmsg : lit "Task title is required"
                 <> lit "Title cannot exceed 100 characters")
    by (vm_compute; discriminate).
  assert (Htext :
    TaskForm.text_error fd =
      if truthy (trim (TaskForm.text fd)) then
        if (100 <? length (TaskForm.text fd))%nat
        then Some (lit "Title cannot exceed 100 characters") else None
      else Some (lit "Task title is required")).
  { unfold TaskForm.text_error. destruct (truthy _); reflexivity. }
  assert (Hdesc :
    TaskForm.description_error fd =
      if (300 <? length (TaskForm.description fd))%nat
      then Some (lit "Description cannot exceed 300 characters") else None).
  { unfold TaskForm.description_error.
    destruct (TaskForm.description fd) as [|c s]; reflexivity. }
  assert (Hdue :
    TaskForm.dueDate_error Date_parse tz fd now
      = Some (lit "Due date cannot be in the past")
    \/ TaskForm.dueDate_error Date_parse tz fd now = None).
  { unfold TaskForm.dueDate_error. cbv zeta.
    destruct (truthy (TaskForm.dueDate fd)); [|right; reflexivity].
    destruct (Date_parse (TaskForm.dueDate fd)) as [due|]; [|right; reflexivity].
    destruct (due <? TaskForm.setHours0 tz now);
      [left; reflexivity | right; reflexivity]. }
  assert (Hdue1 :
    TaskForm.dueDate_error Date_parse tz fd now
      = Some (lit "Due date cannot be in the past")
    <-> exists due, TaskForm.dueDate fd <> []
          /\ Date_parse (TaskForm.dueDate fd) = Some due
          /\ TaskForm.localDay tz due < TaskForm.localDay tz now).
  { unfold TaskForm.dueDate_error. split.
    - destruct (truthy (TaskForm.dueDate fd)) eqn:Ht; [|discriminate].
      destruct (Date_parse (TaskForm.dueDate fd)) as [due|]; [|discriminate].
      destruct (due <? TaskForm.setHours0 tz now) eqn:Hlt; [|discriminate].
      intros _. exists due. apply truthy_true in Ht.
      apply setHours0_lt in Hlt. auto.
    - intros (due & Hne & Hp & Hlt). apply truthy_true in Hne.
      apply setHours0_lt in Hlt. rewrite Hne, Hp, Hlt. reflexivity. }
  rewrite Htext, Hdesc.
  split; [|split; [|split; [|split; [|split; [|split; [|split; [|split; [|split]]]]]]]].
  - destruct (truthy (trim (TaskForm.text fd))) eqn:Ht.
    + apply truthy_true in Ht. destruct (_ <? _)%nat; split; congruence.
    + apply truthy_false in Ht. split; auto.
  - destruct (truthy (trim (TaskForm.text fd))) eqn:Ht.
    + apply truthy_true in Ht.
      destruct (Nat.ltb_spec 100 (length (TaskForm.text fd))); split;
        try (intros [_ ?]; lia); try discriminate; auto.
    + apply truthy_false in Ht. split; [discriminate|]. intros [? _]. congruence.
  - destruct (truthy (trim (TaskForm.text fd))) eqn:Ht.
    + apply truthy_true in Ht.
      destruct (Nat.ltb_spec 100 (length (TaskForm.text fd))); split;
        try (intros [_ ?]; lia); try discriminate; auto.
    + apply truthy_false in Ht. split; [discriminate|]. intros [? _]. congruence.
  - destruct (Nat.ltb_spec 300 (length (TaskForm.description fd))); split;
      try discriminate; try lia; auto.
  - destruct (Nat.ltb_spec 300 (length (TaskForm.description fd))); split;
      try discriminate; try lia; auto.
  - exact Hdue1.
  - rewrite <- Hdue1. destruct Hdue as [-> | ->]; split; congruence.
  - reflexivity.
  - unfold TaskForm.keys_length, TaskForm.noErrors.
    cbn [TaskForm.err_text TaskForm.err_description TaskForm.err_dueDate
         TaskForm.err_submit].
    destruct (truthy (trim (TaskForm.text fd)));
      destruct (100 <? length (TaskForm.text fd))%nat;
      destruct (300 <? length (TaskForm.description fd))%nat;
      destruct Hdue as [-> | ->]; simpl; split; try discriminate; reflexivity.
  - reflexivity.
Qed.

Lemma validateForm_reports_witness :
  fst (TaskForm.validateForm c4_parse 0 c4_now (c5_state c5_good_form)) = true
  /\ TaskForm.err_dueDate
       (TaskForm.errors
          (snd (TaskForm.validateForm c4_parse 0 c4_now (c5_state c5_past_form))))
     = Some (lit "Due date cannot be in the past").
Proof.
  split.
  - apply (proj1 (proj2 (proj2 (proj2 (proj2 (proj2 (proj2 (proj2 (proj2
             (validateForm_reports c4_parse 0 c4_now (c5_state c5_good_form))))))))))).
    reflexivity.
  - apply (proj1 (proj2 (proj2 (proj2 (proj2 (proj2
             (validateForm_reports c4_parse 0 c4_now (c5_state c5_past_form)))))))).
    exists 1699833600000. split; [discriminate|]. split; [reflexivity|].
    vm_compute. reflexivity.
Defined.

(** Where the engine reads a date-only string as midnight UTC, west of
    Greenwich ([tz < 0]) today's own date is reported as being in the past:
    the due instant is compared with local midnight. *)
Remark dueDate_error_west_of_utc (Date_parse : jsstring -> option Z)
    (tz now : Z) (fd : TaskForm.FormData) :
  tz < 0 ->
  TaskForm.dueDate fd <> [] ->
  Date_parse (TaskForm.dueDate fd)
    = Some (TaskForm.localDay tz now * TaskForm.msPerDay) ->
  TaskForm.dueDate_error Date_parse tz fd now
    = Some (lit "Due date cannot be in the past").
Proof.
  intros Htz Hne Hp. unfold TaskForm.dueDate_error.
  apply truthy_true in Hne. rewrite Hne, Hp.
  unfold TaskForm.setHours0.
  destruct (Z.ltb_spec (TaskForm.localDay tz now * TaskForm.msPerDay)
              (TaskForm.localDay tz now * TaskForm.msPerDay - tz));
    [reflexivity | lia].
Qed.

(** ** Filtering keeps order *)

Section Filter.
Context {A : Type} (f : A -> bool).

Lemma filter_sublist (l : list A) : sublist (List.filter f l) l.
Proof.
  induction l as [|x l IH]; simpl; [constructor|].
  destruct (f x); constructor; assumption.
Qed.

Lemma filter_sublist_max (k l : list A) :
  sublist k l -> Forall (fun x => f x = true) k -> sublist k (List.filter f l).
Proof.
  induction 1 as [|x k l _ IH|x k l _ IH]; intros Hk; simpl.
  - constructor.
  - apply Forall_cons in Hk as [Hx Hk]. rewrite Hx.
    constructor. apply IH, Hk.
  - destruct (f x); [constructor|]; apply IH, Hk.
Qed.

Lemma filter_Forall (l : list A) :
  Forall (fun x => f x = true) (List.filter f l).
Proof.
  induction l as [|x l IH]; simpl; [constructor|].
  destruct (f x) eqn:Hx; [constructor|]; assumption.
Qed.

Lemma filter_all (l : list A) :
  Forall (fun x => f x = true) l -> List.filter f l = l.
Proof.
  induction 1 as [|x l Hx _ IH]; simpl; [reflexivity|].
  rewrite Hx, IH. reflexivity.
Qed.
End Filter.

Lemma Forall_pending_negb (l : list Task.t) :
  Forall is_pending l <->
  Forall (fun t => negb (Task.completed t) = true) l.
Proof.
  apply Forall_iff. intros t. unfold is_pending.
  destruct (Task.completed t); simpl; split; congruence.
Qed.

(** ** C6: toggling twice *)

(** C6, as stated, fails: with the clock held at [c6_now], toggling twice a
    task that was completed earlier leaves it completed, but stamped with
    [c6_now] instead of its former [completedAt]. *)
Lemma toggleTask_twice_counterexample :
  toggleTask c6_now (Task.id c6_task) (toggleTask c6_now (Task.id c6_task) [c6_task])
    = [Task.mk (1700000000000 * scale) (lit "Buy milk") [] (lit "medium") None
               true 1700000000000 (Some c6_now)]
  /\ toggleTask c6_now (Task.id c6_task)
       (toggleTask c6_now (Task.id c6_task) [c6_task]) <> [c6_task].
Proof.
  split; [vm_compute; reflexivity|]. vm_compute. discriminate.
Qed.

(** C6 (amended): with the clock held at [now], applying [toggleTask(id)]
    twice keeps the order and, for every task, the [completed] flag and all
    fields other than [completedAt]; the [completedAt] of a task whose id
    matches becomes [now] if the task is completed and [null] if it is not,
    and that of the other tasks is unchanged.  Hence the collection equals
    the original as soon as every matching task is pending with a null
    [completedAt], or completed with [completedAt = now]. *)
Theorem toggleTask_twice (now id : Z) (ts : list Task.t) :
  let ts2 := toggleTask now id (toggleTask now id ts) in
  Forall2 (fun t t' =>
             same_but_completion t t'
             /\ Task.completed t' = Task.completed t
             /\ Task.completedAt t' =
                  if Task.id t =? id
                  then (if Task.completed t then Some now else None)
                  else Task.completedAt t) ts ts2
  /\ (Forall (fun t => Task.id t = id ->
                Task.completedAt t
                  = if Task.completed t then Some now else None) ts ->
      ts2 = ts).
Proof.
  cbv zeta. unfold toggleTask. split.
  - induction ts as [|t ts IH]; simpl; constructor; [|exact IH].
    destruct (Task.id t =? id) eqn:Hid; simpl.
    + rewrite Hid. unfold same_but_completion. simpl.
      rewrite negb_involutive. destruct (Task.completed t); auto 10.
    + rewrite Hid. unfold same_but_completion. auto 10.
  - induction 1 as [|t ts Ht _ IH]; simpl; [reflexivity|].
    rewrite IH. f_equal.
    destruct (Task.id t =? id) eqn:Hid; simpl; rewrite Hid; [|reflexivity].
    apply Z.eqb_eq in Hid. specialize (Ht Hid).
    destruct t as [i x d p du c cr ca]. unfold toggled. simpl in *.
    rewrite negb_involutive. subst ca. destruct c; reflexivity.
Qed.

Lemma toggleTask_twice_witness :
  toggleTask c6_now (Task.id c6_pending)
    (toggleTask c6_now (Task.id c6_pending) [c6_task; c6_pending])
  = [c6_task; c6_pending].
Proof.
  apply (proj2 (toggleTask_twice c6_now (Task.id c6_pending)
                  [c6_task; c6_pending])).
  repeat constructor; vm_compute; congruence.
Defined.

(** ** C7: clearing the completed tasks *)

(** C7: [clearCompleted()] yields exactly the tasks whose [completed] flag
    is false, in their original relative order and unchanged: the result is
    a subsequence of the collection, all of its tasks are pending, every
    subsequence of pending tasks is a subsequence of it, and a task is in
    the result exactly when it is a pending task of the collection.  So no
    task of the result is completed, and a collection without completed
    tasks is left unchanged. *)
Theorem clearCompleted_keeps_pending (ts : list Task.t) :
  let r := clearCompleted ts in
  sublist r ts
  /\ Forall is_pending r
  /\ (forall l, sublist l ts -> Forall is_pending l -> sublist l r)
  /\ (forall t, In t r <-> In t ts /\ is_pending t)
  /\ List.filter Task.completed r = []
  /\ (Forall is_pending ts -> r = ts).
Proof.
  cbv zeta. unfold clearCompleted.
  split; [apply filter_sublist|].
  split; [apply Forall_pending_negb, filter_Forall|].
  split; [intros l Hl Hp; apply filter_sublist_max;
          [assumption | apply Forall_pending_negb, Hp]|].
  split.
  { intros t. rewrite filter_In. unfold is_pending.
    destruct (Task.completed t); simpl; intuition congruence. }
  split.
  { induction ts as [|t ts IH]; simpl; [reflexivity|].
    destruct (Task.completed t) eqn:Hc; simpl; [assumption|].
    rewrite Hc. assumption. }
  intros Hp. apply filter_all, Forall_pending_negb, Hp.
Qed.

Lemma clearCompleted_keeps_pending_witness :
  clearCompleted [c6_pending; c6_pending] = [c6_pending; c6_pending]
  /\ sublist [c6_pending] (clearCompleted [c6_task; c6_pending; c6_task]).
Proof.
  split.
  - apply (proj2 (proj2 (proj2 (proj2 (proj2
             (clearCompleted_keeps_pending [c6_pending; c6_pending])))))).
    repeat constructor.
  - apply (proj1 (proj2 (proj2
             (clearCompleted_keeps_pending [c6_task; c6_pending; c6_task])))).
    + repeat constructor.
    + repeat constructor.
Defined.

(** ** C8: unknown identifiers *)

(** C8: when no task of the collection has identifier [id], each of
    [toggleTask(id)], [updateTask(id, patch)] for any patch, and
    [deleteTask(id)] returns the collection unchanged.  The three
    operations are total functions: there is no failing outcome. *)
Theorem unknown_id_noop (now id : Z) (updates : Patch.t) (ts : list Task.t) :
  Forall (fun t => Task.id t <> id) ts ->
  toggleTask now id ts = ts
  /\ updateTask id updates ts = ts
  /\ deleteTask id ts = ts.
Proof.
  unfold toggleTask, updateTask, deleteTask.
  induction 1 as [|t ts Ht _ (IH1 & IH2 & IH3)]; simpl; [auto|].
  apply Z.eqb_neq in Ht. rewrite Ht, IH1, IH2, IH3. auto.
Qed.

Lemma unknown_id_noop_witness :
  toggleTask c6_now 7 [c6_task; c6_pending] = [c6_task; c6_pending]
  /\ updateTask 7 c1_patch [c6_task; c6_pending] = [c6_task; c6_pending]
  /\ deleteTask 7 [c6_task; c6_pending] = [c6_task; c6_pending].
Proof.
  apply unknown_id_noop. repeat constructor; vm_compute; discriminate.
Defined.

(** ** C9 and C10: filtered views *)

Lemma interleave_filter (ts : list Task.t) :
  interleave (map Task.completed ts)
    (List.filter Task.completed ts)
    (List.filter (fun t => negb (Task.completed t)) ts) = ts.
Proof.
  induction ts as [|t ts IH]; simpl; [reflexivity|].
  destruct (Task.completed t); simpl; rewrite IH; reflexivity.
Qed.

Lemma length_filter_split (ts : list Task.t) :
  (length (List.filter Task.completed ts)
   + length (List.filter (fun t => negb (Task.completed t)) ts))%nat
  = length ts.
Proof.
  induction ts as [|t ts IH]; simpl; [reflexivity|].
  destruct (Task.completed t); simpl; lia.
Qed.

(** C9: [filteredTasks('all')] is the full sequence in unchanged order;
    [filteredTasks('pending')] is exactly the pending tasks and
    [filteredTasks('completed')] exactly the completed ones, each in the
    original order (a subsequence of the collection made of such tasks and
    containing every subsequence of such tasks); putting the two results
    back at the original positions gives [filteredTasks('all')]. *)
Theorem getFilteredTasks_partition (ts : list Task.t) :
  let all := getFilteredTasks ts (lit "all") in
  let ps := getFilteredTasks ts (lit "pending") in
  let cs := getFilteredTasks ts (lit "completed") in
  all = ts
  /\ (sublist ps ts /\ Forall is_pending ps
      /\ forall l, sublist l ts -> Forall is_pending l -> sublist l ps)
  /\ (sublist cs ts /\ Forall is_completed cs
      /\ forall l, sublist l ts -> Forall is_completed l -> sublist l cs)
  /\ interleave (map Task.completed ts) cs ps = all
  /\ (length cs + length ps)%nat = length all.
Proof.
  cbv zeta.
  change (getFilteredTasks ts (lit "all")) with ts.
  change (getFilteredTasks ts (lit "pending"))
    with (List.filter (fun t => negb (Task.completed t)) ts).
  change (getFilteredTasks ts (lit "completed"))
    with (List.filter Task.completed ts).
  split; [reflexivity|]. split; [|split; [|split]].
  - split; [apply filter_sublist|].
    split; [apply Forall_pending_negb, filter_Forall|].
    intros l Hl Hp. apply filter_sublist_max;
      [assumption | apply Forall_pending_negb, Hp].
  - split; [apply filter_sublist|].
    split; [apply (filter_Forall Task.completed)|].
    intros l Hl Hc. apply filter_sublist_max; assumption.
  - apply interleave_filter.
  - apply length_filter_split.
Qed.

Lemma getFilteredTasks_partition_witness :
  sublist [c6_pending]
    (getFilteredTasks [c6_task; c6_pending; c6_task] (lit "pending"))
  /\ sublist [c6_task; c6_task]
       (getFilteredTasks [c6_task; c6_pending; c6_task] (lit "completed")).
Proof.
  destruct (getFilteredTasks_partition [c6_task; c6_pending; c6_task])
    as (_ & (_ & _ & Hp) & (_ & _ & Hc) & _).
  split; [apply Hp | apply Hc]; repeat constructor.
Defined.

(** C10: for every filter value other than 'completed' and 'pending' (so
    for 'all' and for any unrecognised string) [getFilteredTasks] returns
    the full collection unchanged. *)
Theorem getFilteredTasks_default (ts : list Task.t) (filter : jsstring) :
  filter <> lit "completed" -> filter <> lit "pending" ->
  getFilteredTasks ts filter = ts.
Proof.
  intros Hc Hp. unfold getFilteredTasks.
  apply str_eqb_neq in Hc, Hp. rewrite Hc, Hp. reflexivity.
Qed.

Lemma getFilteredTasks_default_witness :
  getFilteredTasks [c6_task; c6_pending] (lit "all") = [c6_task; c6_pending]
  /\ getFilteredTasks [c6_task; c6_pending] (lit "archived")
     = [c6_task; c6_pending]
  /\ getFilteredTasks [c6_task; c6_pending] [] = [c6_task; c6_pending].
Proof.
  split; [|split]; apply getFilteredTasks_default; vm_compute; discriminate.
Defined.

(** * Further properties of the repository *)

Lemma sublist_map {A B} (f : A -> B) (l k : list A) :
  sublist l k -> sublist (map f l) (map f k).
Proof. induction 1; simpl; constructor; assumption. Qed.

Lemma filter_filter_comm {A} (f g : A -> bool) (l : list A) :
  List.filter f (List.filter g l) = List.filter g (List.filter f l).
Proof.
  induction l as [|x l IH]; simpl; [reflexivity|].
  destruct (f x) eqn:Hf, (g x) eqn:Hg; simpl; rewrite ?Hf, ?Hg, IH;
    reflexivity.
Qed.

Lemma filter_idem {A} (f : A -> bool) (l : list A) :
  List.filter f (List.filter f l) = List.filter f l.
Proof. apply filter_all, filter_Forall. Qed.

Lemma ids_toggleTask now i ts : ids (toggleTask now i ts) = ids ts.
Proof.
  unfold ids, toggleTask. rewrite map_map. apply map_ext.
  intros t. destruct (Task.id t =? i); reflexivity.
Qed.

Lemma ids_updateTask i p ts :
  Patch.id p = None -> ids (updateTask i p ts) = ids ts.
Proof.
  intros Hp. unfold ids, updateTask. rewrite map_map. apply map_ext.
  intros t. destruct (Task.id t =? i); [|reflexivity].
  unfold merge; simpl. rewrite Hp. reflexivity.
Qed.

Lemma completed_count_app (l k : list Task.t) :
  length (List.filter Task.completed (l ++ k))
  = (length (List.filter Task.completed l)
     + length (List.filter Task.completed k))%nat.
Proof. rewrite List.filter_app, length_app. reflexivity. Qed.

Lemma taskStats_pending (ts : list Task.t) :
  pending (taskStats ts)
  = length (List.filter (fun t => negb (Task.completed t)) ts).
Proof.
  unfold taskStats; simpl.
  change (List.filter (fun task => Task.completed task) ts)
    with (List.filter Task.completed ts).
  pose proof (length_filter_split ts). lia.
Qed.

(** [taskStats] agrees with the filtered views: [total], [completed] and
    [pending] are the numbers of tasks shown under 'all', 'completed' and
    'pending', and [total = completed + pending]. *)
Theorem taskStats_counts (ts : list Task.t) :
  let s := taskStats ts in
  total s = length (getFilteredTasks ts (lit "all"))
  /\ completedCount s = length (getFilteredTasks ts (lit "completed"))
  /\ pending s = length (getFilteredTasks ts (lit "pending"))
  /\ total s = (completedCount s + pending s)%nat.
Proof.
  cbv zeta.
  change (getFilteredTasks ts (lit "all")) with ts.
  change (getFilteredTasks ts (lit "pending"))
    with (List.filter (fun t => negb (Task.completed t)) ts).
  change (getFilteredTasks ts (lit "completed"))
    with (List.filter Task.completed ts).
  split; [reflexivity|]. split; [reflexivity|].
  split; [apply taskStats_pending|].
  rewrite taskStats_pending. unfold taskStats; simpl.
  change (List.filter (fun task => Task.completed task) ts)
    with (List.filter Task.completed ts).
  symmetry. apply length_filter_split.
Qed.

(** The count written on each filter button is the number of tasks that
    [getFilteredTasks] returns for the key of that button. *)
Theorem filterOptions_counts (ts : list Task.t) :
  Forall (fun o => snd o = length (getFilteredTasks ts (fst o)))
         (Filters.filterOptions (taskStats ts)).
Proof.
  unfold Filters.filterOptions.
  constructor; [reflexivity|]. constructor; [apply taskStats_pending|].
  constructor; [reflexivity|]. constructor.
Qed.

(** [deleteTask(id)] removes every task with that id and nothing else: the
    result is the largest subsequence of tasks with another id.  Deleting
    the same id again changes nothing. *)
Theorem deleteTask_removes (id : Z) (ts : list Task.t) :
  let r := deleteTask id ts in
  sublist r ts
  /\ Forall (fun t => Task.id t <> id) r
  /\ (forall l, sublist l ts -> Forall (fun t => Task.id t <> id) l ->
        sublist l r)
  /\ (forall t, In t r <-> In t ts /\ Task.id t <> id)
  /\ deleteTask id r = r.
Proof.
  cbv zeta. unfold deleteTask.
  assert (Hiff : forall l : list Task.t,
             Forall (fun t => Task.id t <> id) l <->
             Forall (fun t => negb (Task.id t =? id) = true) l).
  { intros l. apply Forall_iff. intros t.
    rewrite negb_true_iff, Z.eqb_neq. reflexivity. }
  split; [apply filter_sublist|].
  split; [apply Hiff, filter_Forall|].
  split; [intros l Hl Hne; apply filter_sublist_max;
          [assumption | apply Hiff, Hne]|].
  split; [|apply filter_idem].
  intros t. rewrite filter_In, negb_true_iff, Z.eqb_neq. reflexivity.
Qed.

(** Deleting the task that [addTask] has just appended gives back the
    previous collection, provided its id was not already in use. *)
Theorem deleteTask_addTask (env : AddEnv) (draft : Draft.t)
    (ts : list Task.t) :
  ~ In (Task.id (newTask env draft)) (ids ts) ->
  deleteTask (Task.id (newTask env draft)) (addTask env draft ts) = ts.
Proof.
  intros Hfresh. unfold deleteTask, addTask.
  rewrite List.filter_app. simpl. rewrite Z.eqb_refl. simpl.
  rewrite app_nil_r. apply filter_all.
  apply Forall_forall. intros t Ht.
  rewrite negb_true_iff, Z.eqb_neq. intros Heq. apply Hfresh.
  change (Task.id (newTask env draft))
    with (add_now_random (Date_now env) (Math_random env)).
  unfold ids. rewrite <- Heq. apply in_map.
  apply list_elem_of_In. exact Ht.
Qed.

Lemma deleteTask_addTask_witness :
  deleteTask (Task.id (newTask c2_env2 c2_draft2))
    (addTask c2_env2 c2_draft2 [c6_pending]) = [c6_pending].
Proof.
  apply deleteTask_addTask. vm_compute. intros [H | []]. discriminate.
Defined.

Lemma merge_empty t : merge t Patch.empty = t.
Proof. destruct t; reflexivity. Qed.

Lemma merge_merge t p : merge (merge t p) p = merge t p.
Proof.
  unfold merge; simpl.
  destruct (Patch.id p), (Patch.text p), (Patch.description p),
    (Patch.priority p), (Patch.dueDate p), (Patch.completed p),
    (Patch.createdAt p), (Patch.completedAt p); reflexivity.
Qed.

Lemma merge_patch_then t p1 p2 :
  merge (merge t p1) p2 = merge t (patch_then p1 p2).
Proof.
  unfold merge, patch_then; simpl.
  destruct (Patch.id p2), (Patch.text p2), (Patch.description p2),
    (Patch.priority p2), (Patch.dueDate p2), (Patch.completed p2),
    (Patch.createdAt p2), (Patch.completedAt p2); reflexivity.
Qed.

(** [updateTask] with an empty patch changes nothing, and applying the
    same patch to the same id twice gives the same collection as applying
    it once (also when the patch changes the id). *)
Theorem updateTask_idempotent (id : Z) (updates : Patch.t)
    (ts : list Task.t) :
  updateTask id Patch.empty ts = ts
  /\ updateTask id updates (updateTask id updates ts)
     = updateTask id updates ts.
Proof.
  unfold updateTask. split.
  - induction ts as [|t ts IH]; simpl; [reflexivity|].
    rewrite IH, merge_empty. destruct (Task.id t =? id); reflexivity.
  - rewrite map_map. apply map_ext. intros t.
    destruct (Task.id t =? id) eqn:Hid; [|rewrite Hid; reflexivity].
    destruct (Task.id (merge t updates) =? id);
      [apply merge_merge | reflexivity].
Qed.

(** Two successive [updateTask] calls on the same id, the first of which
    leaves the id alone, amount to one call with the merged patch
    [{...p1, ...p2}]: later values win, fields named by neither patch are
    untouched. *)
Theorem updateTask_compose (id : Z) (p1 p2 : Patch.t) (ts : list Task.t) :
  Patch.id p1 = None ->
  updateTask id p2 (updateTask id p1 ts) = updateTask id (patch_then p1 p2) ts.
Proof.
  intros Hp1. unfold updateTask. rewrite map_map. apply map_ext. intros t.
  destruct (Task.id t =? id) eqn:Hid; [|rewrite Hid; reflexivity].
  assert (Hm : Task.id (merge t p1) = Task.id t)
    by (unfold merge; simpl; rewrite Hp1; reflexivity).
  rewrite Hm, Hid. apply merge_patch_then.
Qed.

Lemma updateTask_compose_witness :
  updateTask (Task.id c6_pending) c1_patch
    (updateTask (Task.id c6_pending)
       (Patch.mk None (Some (lit "Walk the cat")) None None None None None None)
       [c6_task; c6_pending])
  = updateTask (Task.id c6_pending)
      (Patch.mk None (Some (lit "Walk the cat")) None None None (Some true)
                None None)
      [c6_task; c6_pending].
Proof.
  apply (updateTask_compose (Task.id c6_pending)
           (Patch.mk None (Some (lit "Walk the cat")) None None None None None None)
           c1_patch).
  reflexivity.
Defined.

(** Ids stay pairwise distinct under every operation that does not create
    a duplicate by itself: [toggleTask], [deleteTask] and [clearCompleted]
    always, [updateTask] when the patch has no [id], [addTask] when the
    generated id is not yet present. *)
Theorem step_keeps_unique_ids (op : Op) (ts : list Task.t) :
  NoDup (ids ts) -> op_keeps_ids op ts -> NoDup (ids (step op ts)).
Proof.
  intros Hnd Hop. destruct op as [env d|now i|i p|i|]; simpl in *.
  - unfold addTask, ids. rewrite map_app. apply NoDup_app.
    split; [exact Hnd|]. split; [|repeat constructor; intros H; inversion H].
    intros x Hx Hin. apply list_elem_of_In in Hx.
    apply list_elem_of_In in Hin. simpl in Hin.
    destruct Hin as [<- | []]. apply Hop, Hx.
  - rewrite ids_toggleTask. exact Hnd.
  - rewrite ids_updateTask by exact Hop. exact Hnd.
  - eapply sublist_NoDup; [exact Hnd|].
    apply sublist_map, filter_sublist.
  - eapply sublist_NoDup; [exact Hnd|].
    apply sublist_map, filter_sublist.
Qed.

Lemma step_keeps_unique_ids_witness :
  NoDup (ids (step (OpAdd c2_env2 c2_draft2) [c6_pending])).
Proof.
  apply step_keeps_unique_ids.
  - repeat constructor. intros H. inversion H.
  - vm_compute. intros [H | []]. discriminate.
Defined.

Lemma toggleTask_other now i (l : list Task.t) :
  ~ In i (ids l) -> toggleTask now i l = l.
Proof.
  unfold toggleTask. induction l as [|t l IH]; simpl; intros Hi;
    [reflexivity|].
  destruct (Z.eqb_spec (Task.id t) i) as [Heq|_]; [tauto|].
  rewrite IH by tauto. reflexivity.
Qed.

Lemma toggleTask_app now i (l k : list Task.t) :
  toggleTask now i (l ++ k) = toggleTask now i l ++ toggleTask now i k.
Proof. unfold toggleTask. apply map_app. Qed.

(** When ids are pairwise distinct, [toggleTask(task.id)] rebuilds the
    task it was called for and leaves every other task as it is; the total
    is unchanged and the completed count moves by exactly one. *)
Theorem toggleTask_unique (now : Z) (t : Task.t) (l1 l2 : list Task.t) :
  NoDup (ids (l1 ++ t :: l2)) ->
  let r := toggleTask now (Task.id t) (l1 ++ t :: l2) in
  r = l1 ++ toggled now t :: l2
  /\ total (taskStats r) = total (taskStats (l1 ++ t :: l2))
  /\ (completedCount (taskStats r) + (if Task.completed t then 1 else 0))%nat
     = (completedCount (taskStats (l1 ++ t :: l2))
        + (if Task.completed t then 0 else 1))%nat.
Proof.
  intros Hnd. cbv zeta.
  unfold ids in Hnd. rewrite map_app in Hnd. simpl in Hnd.
  apply NoDup_app in Hnd as (_ & Hdisj & Hnd2).
  apply NoDup_cons in Hnd2 as [Hnot2 _].
  assert (H1 : ~ In (Task.id t) (ids l1)).
  { intros Hin. apply (Hdisj (Task.id t)).
    - apply list_elem_of_In, Hin.
    - left. }
  assert (H2 : ~ In (Task.id t) (ids l2)).
  { intros Hin. apply Hnot2, list_elem_of_In, Hin. }
  assert (Hr : toggleTask now (Task.id t) (l1 ++ t :: l2)
               = l1 ++ toggled now t :: l2).
  { rewrite toggleTask_app, (toggleTask_other now _ l1 H1).
    change (t :: l2) with ([t] ++ l2).
    rewrite toggleTask_app, (toggleTask_other now _ l2 H2).
    unfold toggleTask at 1. simpl. rewrite Z.eqb_refl. reflexivity. }
  rewrite Hr. split; [reflexivity|]. unfold taskStats; simpl. split.
  - rewrite !length_app. reflexivity.
  - change (List.filter (fun task => Task.completed task))
      with (List.filter Task.completed).
    rewrite !completed_count_app. simpl.
    destruct (Task.completed t); simpl; lia.
Qed.

Lemma toggleTask_unique_witness :
  toggleTask c6_now (Task.id c6_pending) ([c6_task] ++ c6_pending :: [])
  = [c6_task] ++ toggled c6_now c6_pending :: [].
Proof.
  apply (toggleTask_unique c6_now c6_pending [c6_task] []).
  vm_compute. repeat constructor; rewrite ?list_elem_of_In; simpl;
    intuition discriminate.
Defined.

Lemma completed_clearCompleted (ts : list Task.t) :
  List.filter Task.completed (clearCompleted ts) = [].
Proof.
  unfold clearCompleted. induction ts as [|t ts IH]; simpl; [reflexivity|].
  destruct (Task.completed t) eqn:Hc; simpl; [assumption|].
  rewrite Hc. assumption.
Qed.

(** [clearCompleted] twice is [clearCompleted] once; afterwards no task is
    counted as completed, and the total and the pending count are both the
    pending count from before. *)
Theorem clearCompleted_stats (ts : list Task.t) :
  clearCompleted (clearCompleted ts) = clearCompleted ts
  /\ taskStats (clearCompleted ts)
     = {| total := pending (taskStats ts);
          completedCount := 0;
          pending := pending (taskStats ts) |}.
Proof.
  split; [apply filter_idem|].
  rewrite (taskStats_pending ts).
  change (List.filter (fun t => negb (Task.completed t)) ts)
    with (clearCompleted ts).
  unfold taskStats at 1.
  change (List.filter (fun task => Task.completed task) (clearCompleted ts))
    with (List.filter Task.completed (clearCompleted ts)).
  rewrite completed_clearCompleted. simpl. rewrite Nat.sub_0_r. reflexivity.
Qed.

(** The task appended by [addTask] shows up last under 'all' and
    'pending', not under 'completed'; the total and the pending count grow
    by one and the completed count stays. *)
Theorem addTask_views (env : AddEnv) (draft : Draft.t) (ts : list Task.t) :
  let ts' := addTask env draft ts in
  getFilteredTasks ts' (lit "all")
    = getFilteredTasks ts (lit "all") ++ [newTask env draft]
  /\ getFilteredTasks ts' (lit "pending")
     = getFilteredTasks ts (lit "pending") ++ [newTask env draft]
  /\ getFilteredTasks ts' (lit "completed")
     = getFilteredTasks ts (lit "completed")
  /\ total (taskStats ts') = S (total (taskStats ts))
  /\ pending (taskStats ts') = S (pending (taskStats ts))
  /\ completedCount (taskStats ts') = completedCount (taskStats ts).
Proof.
  cbv zeta.
  assert (Hp : getFilteredTasks (addTask env draft ts) (lit "pending")
               = getFilteredTasks ts (lit "pending") ++ [newTask env draft]).
  { change (List.filter (fun t => negb (Task.completed t))
              (ts ++ [newTask env draft])
            = List.filter (fun t => negb (Task.completed t)) ts
              ++ [newTask env draft]).
    rewrite List.filter_app. reflexivity. }
  assert (Hc : getFilteredTasks (addTask env draft ts) (lit "completed")
               = getFilteredTasks ts (lit "completed")).
  { change (List.filter Task.completed (ts ++ [newTask env draft])
            = List.filter Task.completed ts).
    rewrite List.filter_app. simpl. apply app_nil_r. }
  split; [reflexivity|]. split; [exact Hp|]. split; [exact Hc|].
  rewrite !taskStats_pending.
  change (List.filter (fun t => negb (Task.completed t)) (addTask env draft ts))
    with (getFilteredTasks (addTask env draft ts) (lit "pending")).
  change (List.filter (fun t => negb (Task.completed t)) ts)
    with (getFilteredTasks ts (lit "pending")).
  change (completedCount (taskStats (addTask env draft ts)))
    with (length (getFilteredTasks (addTask env draft ts) (lit "completed"))).
  change (completedCount (taskStats ts))
    with (length (getFilteredTasks ts (lit "completed"))).
  rewrite Hp, Hc. unfold taskStats, addTask; simpl.
  rewrite !length_app. simpl. repeat split; lia.
Qed.

Lemma filter_map_comm {A} (f : A -> bool) (g : A -> A) (l : list A) :
  (forall x, f (g x) = f x) ->
  List.filter f (map g l) = map g (List.filter f l).
Proof.
  intros Hfg. induction l as [|x l IH]; simpl; [reflexivity|].
  rewrite Hfg. destruct (f x); simpl; rewrite IH; reflexivity.
Qed.

(** [deleteTask] commutes with [toggleTask], with another [deleteTask] and
    with [clearCompleted]: the order in which the two are applied does not
    matter, whatever the ids. *)
Theorem deleteTask_commutes (now i j : Z) (ts : list Task.t) :
  deleteTask i (toggleTask now j ts) = toggleTask now j (deleteTask i ts)
  /\ deleteTask i (deleteTask j ts) = deleteTask j (deleteTask i ts)
  /\ deleteTask i (clearCompleted ts) = clearCompleted (deleteTask i ts).
Proof.
  unfold deleteTask, clearCompleted, toggleTask.
  split; [|split; apply filter_filter_comm].
  apply filter_map_comm. intros t.
  destruct (Task.id t =? j); reflexivity.
Qed.

(** ** Identifiers and the clock *)

Lemma round_to_double_between (n a : Z) :
  0 <= a -> a + 1 <= 2 ^ 53 -> a * scale <= n < (a + 1) * scale ->
  a * scale <= round_to_double n <= (a + 1) * scale.
Proof.
  intros Ha Hmax Hn. unfold round_to_double.
  destruct (Z.leb_spec (Z.log2 n + 1) 53) as [_|Hbits]; [lia|].
  cbv zeta. set (s := Z.log2 n + 1 - 53) in *.
  assert (Hpos : 0 < n).
  { destruct (Z.lt_trichotomy 0 n) as [H|[H|H]]; [assumption| |].
    - subst n. simpl in Hbits. lia.
    - rewrite (Z.log2_nonpos n) in Hbits by lia. lia. }
  assert (Hs : 1 <= s <= 53).
  { split; [lia|]. assert (Z.log2 n < 106); [|lia].
    apply Z.log2_lt_pow2; [assumption|].
    assert ((a + 1) * scale <= 2 ^ 53 * 2 ^ 53)
      by (apply Z.mul_le_mono_nonneg_r; unfold scale; lia).
    change (2 ^ 106) with (2 ^ 53 * 2 ^ 53). lia. }
  assert (Hm : 0 < 2 ^ s) by (apply Z.pow_pos_nonneg; lia).
  assert (Hc : 0 < 2 ^ (53 - s)) by (apply Z.pow_pos_nonneg; lia).
  assert (Hscale : scale = 2 ^ (53 - s) * 2 ^ s).
  { unfold scale. rewrite <- Z.pow_add_r by lia. f_equal. lia. }
  rewrite Z.shiftr_div_pow2 by lia.
  assert (Hlo : a * 2 ^ (53 - s) <= n / 2 ^ s).
  { apply Z.div_le_lower_bound; [assumption|]. rewrite Hscale in Hn. lia. }
  assert (Hhi : n / 2 ^ s < (a + 1) * 2 ^ (53 - s)).
  { apply Z.div_lt_upper_bound; [assumption|]. rewrite Hscale in Hn. lia. }
  rewrite Hscale.
  set (q := n / 2 ^ s) in *. set (m := 2 ^ s) in *.
  set (c := 2 ^ (53 - s)) in *.
  destruct (_ <? _); [|destruct (_ <? _); [|destruct (Z.even q)]];
    rewrite Z.shiftl_mul_pow2 by lia; fold m; nia.
Qed.

Lemma add_now_random_between (now k : Z) :
  0 <= now -> now + 1 <= 2 ^ 53 -> 0 <= k < scale ->
  now * scale <= add_now_random now k <= (now + 1) * scale.
Proof.
  intros Hnow Hmax Hk. unfold add_now_random.
  apply round_to_double_between; lia.
Qed.

(** The id computed at clock reading [now] lies between [now] and
    [now + 1], both included; so two ids computed at least two
    milliseconds apart are different, the later one being the larger. *)
Theorem ids_two_ms_apart (now1 now2 k1 k2 : Z) :
  0 <= now1 -> now1 + 2 <= now2 -> now2 + 1 <= 2 ^ 53 ->
  0 <= k1 < scale -> 0 <= k2 < scale ->
  now1 * scale <= add_now_random now1 k1 <= (now1 + 1) * scale
  /\ add_now_random now1 k1 < add_now_random now2 k2.
Proof.
  intros H1 H12 Hmax Hk1 Hk2.
  pose proof (add_now_random_between now1 k1 H1 ltac:(lia) Hk1) as B1.
  pose proof (add_now_random_between now2 k2 ltac:(lia) Hmax Hk2) as B2.
  split; [exact B1|].
  assert (0 < scale) by reflexivity. nia.
Qed.

Lemma ids_two_ms_apart_witness :
  add_now_random 1700000000000 (scale - 1) < add_now_random 1700000000002 0.
Proof.
  apply (ids_two_ms_apart 1700000000000 1700000000002 (scale - 1) 0);
    unfold scale; lia.
Defined.

(** One millisecond apart is not enough: the first id is rounded up to the
    next millisecond, the second is exactly that millisecond. *)
Example ids_one_ms_apart_collide :
  add_now_random 1700000000000 (scale - 1) = add_now_random 1700000000001 0.
Proof. vm_compute. reflexivity. Qed.

(** ** Trimming *)

Lemma trimStart_split (s : jsstring) :
  exists pre, s = pre ++ trimStart s /\ all_space pre.
Proof.
  induction s as [|c s (pre & Hs & Hpre)]; simpl.
  - exists []. split; [reflexivity|constructor].
  - destruct (is_space c) eqn:Hc.
    + exists (c :: pre). split; [simpl; f_equal; exact Hs|].
      constructor; assumption.
    + exists []. split; [reflexivity|constructor].
Qed.

Lemma trimStart_no_leading (s : jsstring) : no_leading_space (trimStart s).
Proof.
  induction s as [|c s IH]; simpl; [exact I|].
  destruct (is_space c) eqn:Hc; [exact IH|exact Hc].
Qed.

Lemma trimStart_fixed (s : jsstring) :
  no_leading_space s -> trimStart s = s.
Proof. destruct s as [|c s]; simpl; [reflexivity|]. intros ->. reflexivity. Qed.

Lemma trimStart_all_space (s : jsstring) : all_space s -> trimStart s = [].
Proof. induction 1 as [|c s Hc _ IH]; simpl; [|rewrite Hc]; auto. Qed.

Lemma trimStart_snoc (l : jsstring) (c : N) :
  is_space c = false -> trimStart (l ++ [c]) = trimStart l ++ [c].
Proof.
  intros Hc. induction l as [|x l IH]; simpl; [rewrite Hc; reflexivity|].
  destruct (is_space x); [exact IH|reflexivity].
Qed.

Lemma trimEnd_split (s : jsstring) :
  exists post, s = trimEnd s ++ post /\ all_space post.
Proof.
  destruct (trimStart_split (rev s)) as (pre & Hs & Hpre).
  exists (rev pre). split.
  - unfold trimEnd. rewrite <- rev_app_distr, <- Hs, rev_involutive.
    reflexivity.
  - apply Forall_rev. exact Hpre.
Qed.

Lemma trimEnd_no_trailing (s : jsstring) : no_leading_space (rev (trimEnd s)).
Proof.
  unfold trimEnd. rewrite rev_involutive. apply trimStart_no_leading.
Qed.

Lemma trimEnd_keeps_head (s : jsstring) :
  no_leading_space s -> no_leading_space (trimEnd s).
Proof.
  destruct s as [|c s]; simpl; [intros _; exact I|]. intros Hc.
  unfold trimEnd. simpl. rewrite trimStart_snoc by exact Hc.
  rewrite rev_app_distr. simpl. exact Hc.
Qed.

Lemma trimEnd_idem (s : jsstring) : trimEnd (trimEnd s) = trimEnd s.
Proof.
  unfold trimEnd. rewrite rev_involutive.
  rewrite (trimStart_fixed (trimStart (rev s))); [reflexivity|].
  apply trimStart_no_leading.
Qed.

Lemma trim_no_leading (s : jsstring) : no_leading_space (trim s).
Proof. apply trimEnd_keeps_head, trimStart_no_leading. Qed.

Lemma trim_idem (s : jsstring) : trim (trim s) = trim s.
Proof.
  unfold trim at 1. rewrite (trimStart_fixed (trim s)) by apply trim_no_leading.
  unfold trim. apply trimEnd_idem.
Qed.

Lemma trim_split (s : jsstring) :
  exists pre post, s = pre ++ trim s ++ post /\ all_space pre /\ all_space post.
Proof.
  destruct (trimStart_split s) as (pre & Hs & Hpre).
  destruct (trimEnd_split (trimStart s)) as (post & Ht & Hpost).
  exists pre, post. split; [|split; assumption].
  unfold trim. rewrite <- Ht. exact Hs.
Qed.

Lemma trim_nil_iff (s : jsstring) : trim s = [] <-> all_space s.
Proof.
  split.
  - intros H. destruct (trim_split s) as (pre & post & Hs & Hpre & Hpost).
    rewrite H in Hs. rewrite Hs. simpl. apply Forall_app; split; assumption.
  - intros H. unfold trim. rewrite trimStart_all_space by exact H.
    reflexivity.
Qed.

Lemma length_trim (s : jsstring) : (length (trim s) <= length s)%nat.
Proof.
  destruct (trim_split s) as (pre & post & Hs & _).
  rewrite Hs at 2. rewrite !length_app. lia.
Qed.

(** The title stored by [addTask] is the draft title without the
    whitespace at its two ends: the draft title is whitespace, then the
    stored title, then whitespace, and the stored title neither starts nor
    ends with a whitespace character.  It is empty exactly when the draft
    title consists of whitespace only, and trimming it again changes
    nothing. *)
Theorem addTask_title_trimmed (env : AddEnv) (draft : Draft.t) :
  let title := Task.text (newTask env draft) in
  (exists pre post,
      Draft.text draft = pre ++ title ++ post
      /\ all_space pre /\ all_space post)
  /\ no_leading_space title
  /\ no_leading_space (rev title)
  /\ (title = [] <-> all_space (Draft.text draft))
  /\ trim title = title.
Proof.
  cbv zeta. simpl.
  split; [apply trim_split|]. split; [apply trim_no_leading|].
  split; [apply trimEnd_no_trailing|]. split; [apply trim_nil_iff|].
  apply trim_idem.
Qed.

(** * Further properties of the task item *)

(** [formatDate]: an instant less than one hour before [now], or after
    [now], is "Just now"; from one hour to less than 24 hours it is
    "N hour(s) ago" with [N] the number of full hours, between 1 and 23,
    "hours" unless [N = 1]; from 24 hours on it is the en-US date, the year
    being shown exactly when it differs from the current year.  A string
    that is not a date is printed "Invalid Date". *)
Theorem formatDate_cases (Date_parse : jsstring -> option Z)
    (fmt : Z -> bool -> jsstring) (getFullYear : Z -> Z)
    (dateString : jsstring) (now : Z) :
  let r := TaskItemView.formatDate Date_parse fmt getFullYear dateString now in
  (Date_parse dateString = None -> r = lit "Invalid Date")
  /\ (forall date, Date_parse dateString = Some date ->
        (now - date < TaskItemView.msPerHour -> r = lit "Just now")
        /\ (TaskItemView.msPerHour <= now - date < 24 * TaskItemView.msPerHour ->
            exists h, 1 <= h <= 23
              /\ h * TaskItemView.msPerHour <= now - date
                 < (h + 1) * TaskItemView.msPerHour
              /\ r = Number_toString h ++ lit " hour"
                     ++ (if h =? 1 then [] else lit "s") ++ lit " ago")
        /\ (24 * TaskItemView.msPerHour <= now - date ->
            r = fmt date (negb (getFullYear date =? getFullYear now)))).
Proof.
  cbv zeta. unfold TaskItemView.formatDate. split.
  - intros ->. reflexivity.
  - intros date ->. cbv zeta.
    assert (HH : 0 < TaskItemView.msPerHour) by reflexivity.
    split; [|split].
    + intros Hlt. destruct (Z.ltb_spec (now - date) (1 * TaskItemView.msPerHour));
        [reflexivity|lia].
    + intros [Hge Hlt].
      destruct (Z.ltb_spec (now - date) (1 * TaskItemView.msPerHour)); [lia|].
      destruct (Z.ltb_spec (now - date) (24 * TaskItemView.msPerHour)); [|lia].
      exists ((now - date) / TaskItemView.msPerHour).
      pose proof (Z.mul_div_le (now - date) _ HH).
      pose proof (Z.mul_succ_div_gt (now - date) _ HH).
      split; [nia|]. split; [lia|].
      destruct (_ =? 1); reflexivity.
    + intros Hge.
      destruct (Z.ltb_spec (now - date) (1 * TaskItemView.msPerHour)); [lia|].
      destruct (Z.ltb_spec (now - date) (24 * TaskItemView.msPerHour)); [lia|].
      reflexivity.
Qed.

Lemma formatDate_cases_witness :
  TaskItemView.formatDate c4_parse x_fmt_enUS x_year (lit "2023-11-14") c4_now
    = lit "22 hours ago"
  /\ TaskItemView.formatDate c4_parse x_fmt_enUS x_year (lit "2023-11-16") c4_now
     = lit "Just now"
  /\ TaskItemView.formatDate c4_parse x_fmt_enUS x_year (lit "tomorrow") c4_now
     = lit "Invalid Date".
Proof.
  split; [|split].
  - destruct (proj1 (proj2 (proj2 (formatDate_cases c4_parse x_fmt_enUS x_year
                (lit "2023-11-14") c4_now) 1699920000000 eq_refl)))
      as (h & Hh & Hrange & ->).
    + vm_compute. split; congruence.
    + assert (h = 22) as ->
        by (unfold TaskItemView.msPerHour, c4_now in Hrange; lia).
      reflexivity.
  - apply (proj1 (proj2 (formatDate_cases c4_parse x_fmt_enUS x_year
                (lit "2023-11-16") c4_now) 1700092800000 eq_refl)).
    reflexivity.
  - apply (proj1 (formatDate_cases c4_parse x_fmt_enUS x_year
                (lit "tomorrow") c4_now)).
    reflexivity.
Defined.

(** [dueDateStatus] outside the dates: an empty due date gives no status,
    and a non-empty due date that is not a date is classified 'later' and
    labelled "Due Invalid Date". *)
Theorem dueDateStatus_not_a_date (Date_parse : jsstring -> option Z)
    (toLocaleDateString : Z -> jsstring) (task : Task.t) (now : Z) :
  let result := TaskItem.dueDateStatus Date_parse toLocaleDateString task now in
  (Task.dueDate task = Some [] -> result = None)
  /\ (forall s, Task.dueDate task = Some s -> s <> [] ->
        Date_parse s = None ->
        result = Some (TaskItem.mkDue TaskItem.later (lit "Due Invalid Date")
                         (lit "due-upcoming"))).
Proof.
  cbv zeta. unfold TaskItem.dueDateStatus. split.
  - intros ->. reflexivity.
  - intros s -> Hne Hp. apply truthy_true in Hne. rewrite Hne, Hp.
    reflexivity.
Qed.

Lemma dueDateStatus_not_a_date_witness :
  TaskItem.dueDateStatus c4_parse c4_fmt (c4_task (Some [])) c4_now = None
  /\ TaskItem.dueDateStatus c4_parse c4_fmt
       (c4_task (Some (lit "next week"))) c4_now
     = Some (TaskItem.mkDue TaskItem.later (lit "Due Invalid Date")
               (lit "due-upcoming")).
Proof.
  split.
  - apply (proj1 (dueDateStatus_not_a_date c4_parse c4_fmt
                    (c4_task (Some [])) c4_now)). reflexivity.
  - apply (proj2 (dueDateStatus_not_a_date c4_parse c4_fmt
                    (c4_task (Some (lit "next week"))) c4_now)
             (lit "next week")); [reflexivity | discriminate | reflexivity].
Defined.

Lemma opt_str_eqb_eq a b : TaskItemView.opt_str_eqb a b = true <-> a = b.
Proof.
  destruct a, b; simpl; rewrite ?str_eqb_eq; split; congruence.
Qed.

Lemma opt_time_eqb_eq a b : TaskItemView.opt_time_eqb a b = true <-> a = b.
Proof.
  destruct a, b; simpl; rewrite ?Z.eqb_eq; split; congruence.
Qed.

(** The re-render test of [React.memo] accepts two tasks as equal exactly
    when they agree on every field except [createdAt], which it does not
    look at.  A task and its toggled version are never accepted as equal,
    so a toggle always renders the item again. *)
Theorem arePropsEqual_iff (prevTask nextTask : Task.t) (now : Z) :
  (TaskItemView.arePropsEqual prevTask nextTask = true
   <-> nextTask = with_createdAt prevTask (Task.createdAt nextTask))
  /\ TaskItemView.arePropsEqual prevTask (toggled now prevTask) = false.
Proof.
  split.
  - unfold TaskItemView.arePropsEqual, with_createdAt.
    rewrite !andb_true_iff, Z.eqb_eq, !str_eqb_eq, opt_str_eqb_eq,
      opt_time_eqb_eq, eqb_true_iff.
    destruct prevTask, nextTask; simpl. split.
    + intros ((((((-> & ->) & ->) & ->) & ->) & ->) & ->). reflexivity.
    + intros [= -> -> -> -> -> -> ->]. repeat split.
  - unfold TaskItemView.arePropsEqual, toggled; simpl.
    destruct (Task.completed prevTask); simpl;
      rewrite ?andb_false_r; reflexivity.
Qed.

(** A task created from a form whose due date passed validation at the
    instant [now] is not overdue at that instant: it has no due status,
    which happens exactly when no date was entered, or one that is not
    'overdue'. *)
Theorem accepted_dueDate_not_overdue (Date_parse : jsstring -> option Z)
    (tz : Z) (toLocaleDateString : Z -> jsstring) (now : Z) (env : AddEnv)
    (fd : TaskForm.FormData) :
  TaskForm.dueDate_error Date_parse tz fd now = None ->
  match TaskItem.dueDateStatus Date_parse toLocaleDateString
          (newTask env (TaskFormHandlers.submitted fd)) now with
  | Some st => TaskItem.status st <> TaskItem.overdue
  | None => TaskForm.dueDate fd = []
  end.
Proof.
  unfold TaskForm.dueDate_error, TaskItem.dueDateStatus. simpl.
  destruct (TaskForm.dueDate fd) as [|c s] eqn:Hd; simpl; [reflexivity|].
  destruct (Date_parse (c :: s)) as [due|]; [|discriminate].
  destruct (Z.ltb_spec due (TaskForm.setHours0 tz now)) as [|Hge];
    [discriminate|]. intros _.
  assert (HD : 0 < TaskForm.msPerDay) by reflexivity.
  assert (Hd0 : 0 <= ceil_div (due - now) TaskItem.msPerDay).
  { pose proof (ceil_div_spec (due - now) TaskItem.msPerDay HD) as Hc.
    unfold TaskForm.setHours0, TaskForm.localDay in Hge.
    pose proof (Z.mul_succ_div_gt (now + tz) TaskForm.msPerDay HD).
    change TaskItem.msPerDay with TaskForm.msPerDay in *. nia. }
  destruct (Z.ltb_spec (ceil_div (due - now) TaskItem.msPerDay) 0); [lia|].
  destruct (_ =? 0); [discriminate|]. destruct (_ <=? 3); discriminate.
Qed.

Lemma accepted_dueDate_not_overdue_witness :
  match TaskItem.dueDateStatus c4_parse c4_fmt
          (newTask c1_env
             (TaskFormHandlers.submitted
                (TaskForm.mkForm (lit "Buy milk") [] (lit "low")
                   (lit "2023-11-14")))) c4_now with
  | Some st => TaskItem.status st <> TaskItem.overdue
  | None => lit "2023-11-14" = []
  end.
Proof.
  apply (accepted_dueDate_not_overdue c4_parse 0 c4_fmt c4_now c1_env
           (TaskForm.mkForm (lit "Buy milk") [] (lit "low") (lit "2023-11-14"))).
  vm_compute. reflexivity.
Defined.

(** * Further properties of the filter bar *)

Lemma no_completed_all_pending (ts : list Task.t) :
  length (List.filter Task.completed ts) = 0%nat ->
  Forall (fun t => negb (Task.completed t) = true) ts.
Proof.
  induction ts as [|t ts IH]; simpl; [constructor|].
  destruct (Task.completed t) eqn:Hc; simpl; [discriminate|].
  intros H. constructor; [rewrite Hc; reflexivity | apply IH, H].
Qed.

(** [handleClearCompleted]: when the user confirms, the collection becomes
    [clearCompleted] of it, also when nothing was completed (then nothing
    changes and nothing is asked); when the user declines, nothing changes.
    The clear button is shown exactly when some task is completed, and is
    gone after a confirmed clear. *)
Theorem handleClearCompleted_cases (ts : list Task.t) :
  Filters.handleClearCompleted true ts = clearCompleted ts
  /\ Filters.handleClearCompleted false ts = ts
  /\ (Filters.clearButtonShown ts = true
      <-> exists t, In t ts /\ Task.completed t = true)
  /\ Filters.clearButtonShown (Filters.handleClearCompleted true ts) = false.
Proof.
  assert (H1 : Filters.handleClearCompleted true ts = clearCompleted ts).
  { unfold Filters.handleClearCompleted, taskStats; simpl.
    change (List.filter (fun task => Task.completed task) ts)
      with (List.filter Task.completed ts).
    destruct (Nat.ltb_spec 0 (length (List.filter Task.completed ts)));
      simpl; [reflexivity|].
    symmetry. apply filter_all, no_completed_all_pending. lia. }
  split; [exact H1|]. split.
  { unfold Filters.handleClearCompleted. rewrite andb_false_r. reflexivity. }
  split.
  { unfold Filters.clearButtonShown, taskStats; simpl.
    change (List.filter (fun task => Task.completed task) ts)
      with (List.filter Task.completed ts).
    rewrite Nat.ltb_lt. split.
    - intros Hlen. destruct (List.filter Task.completed ts) as [|t l] eqn:Hf;
        [simpl in Hlen; lia|].
      exists t. apply filter_In. rewrite Hf. left. reflexivity.
    - intros (t & Hin & Hc).
      assert (Hin' : In t (List.filter Task.completed ts))
        by (apply filter_In; auto).
      destruct (List.filter Task.completed ts); [destruct Hin'|simpl; lia]. }
  rewrite H1. unfold Filters.clearButtonShown, taskStats; simpl.
  change (List.filter (fun task => Task.completed task) (clearCompleted ts))
    with (List.filter Task.completed (clearCompleted ts)).
  rewrite completed_clearCompleted. reflexivity.
Qed.

(** * Further properties of the task form *)

Lemma validateForm_true (Date_parse : jsstring -> option Z) (tz now : Z)
    (st : TaskForm.State) :
  fst (TaskForm.validateForm Date_parse tz now st) = true ->
  TaskForm.text_error (TaskForm.formData st) = None
  /\ TaskForm.description_error (TaskForm.formData st) = None
  /\ TaskForm.dueDate_error Date_parse tz (TaskForm.formData st) now = None.
Proof.
  unfold TaskForm.validateForm, TaskForm.keys_length.
  cbn [fst TaskForm.err_text TaskForm.err_description TaskForm.err_dueDate
       TaskForm.err_submit].
  destruct (TaskForm.text_error _), (TaskForm.description_error _),
    (TaskForm.dueDate_error _ _ _ _); simpl; try discriminate; auto.
Qed.

Lemma validateForm_false (Date_parse : jsstring -> option Z) (tz now : Z)
    (st : TaskForm.State) :
  fst (TaskForm.validateForm Date_parse tz now st) = false ->
  (0 < TaskForm.keys_length
         (TaskForm.errors (snd (TaskForm.validateForm Date_parse tz now st))))%nat.
Proof.
  unfold TaskForm.validateForm. cbn [fst snd TaskForm.errors].
  intros H. apply Nat.eqb_neq in H. lia.
Qed.

Lemma text_error_none (fd : TaskForm.FormData) :
  TaskForm.text_error fd = None ->
  trim (TaskForm.text fd) <> [] /\ (length (TaskForm.text fd) <= 100)%nat.
Proof.
  unfold TaskForm.text_error.
  destruct (truthy (trim (TaskForm.text fd))) eqn:Ht; simpl; [|discriminate].
  destruct (Nat.ltb_spec 100 (length (TaskForm.text fd))); [discriminate|].
  intros _. apply truthy_true in Ht. auto.
Qed.

Lemma description_error_none (fd : TaskForm.FormData) :
  TaskForm.description_error fd = None ->
  (length (TaskForm.description fd) <= 300)%nat.
Proof.
  unfold TaskForm.description_error.
  destruct (TaskForm.description fd) as [|c s] eqn:Hd; simpl; [lia|].
  destruct (Nat.ltb_spec 300 (S (length s))); [discriminate|]. lia.
Qed.

(** A submit that passes validation appends exactly one task and resets
    the form to its initial state.  The new task's title is the typed
    title trimmed (trimmed once by the handler and once by [addTask], which
    is the same as once), it is not empty and has at most 100 code units;
    its description is the typed one trimmed, at most 300 code units; its
    priority is the chosen one (medium if the field is empty), its due date
    the entered one ([null] if the field is empty); it is pending. *)
Theorem handleSubmit_valid (Date_parse : jsstring -> option Z) (tz now : Z)
    (env : AddEnv) (c : TaskFormHandlers.Component) (tasks : list Task.t) :
  fst (TaskForm.validateForm Date_parse tz now (TaskFormHandlers.state c))
    = true ->
  let fd := TaskForm.formData (TaskFormHandlers.state c) in
  let r := TaskFormHandlers.handleSubmit Date_parse tz now env c tasks in
  fst r = TaskFormHandlers.initialComponent
  /\ exists t,
       snd r = tasks ++ [t]
       /\ Task.text t = trim (TaskForm.text fd)
       /\ Task.text t <> []
       /\ (length (Task.text t) <= 100)%nat
       /\ Task.description t = trim (TaskForm.description fd)
       /\ (length (Task.description t) <= 300)%nat
       /\ Task.priority t
          = (if truthy (TaskForm.priority fd) then TaskForm.priority fd
             else lit "medium")
       /\ Task.dueDate t
          = (if truthy (TaskForm.dueDate fd) then Some (TaskForm.dueDate fd)
             else None)
       /\ Task.completed t = false
       /\ Task.completedAt t = None.
Proof.
  intros Hvalid. cbv zeta.
  destruct (validateForm_true _ _ _ _ Hvalid) as (Ht & Hd & Hdue).
  destruct (text_error_none _ Ht) as [Hne Hlen].
  pose proof (description_error_none _ Hd) as Hdlen.
  unfold TaskFormHandlers.handleSubmit.
  destruct (TaskForm.validateForm Date_parse tz now (TaskFormHandlers.state c))
    as [valid st'] eqn:Hv.
  assert (Herr : TaskForm.errors st' = TaskForm.noErrors).
  { unfold TaskForm.validateForm in Hv. injection Hv as _ <-. simpl.
    rewrite Ht, Hd, Hdue. reflexivity. }
  simpl in Hvalid. subst valid. simpl. rewrite Herr.
  split; [reflexivity|].
  set (fd := TaskForm.formData (TaskFormHandlers.state c)) in *.
  exists (newTask env (TaskFormHandlers.submitted fd)).
  split; [reflexivity|]. simpl.
  rewrite !trim_idem.
  split; [reflexivity|]. split; [exact Hne|].
  split; [pose proof (length_trim (TaskForm.text fd)); lia|].
  split; [destruct (trim (TaskForm.description fd)); reflexivity|].
  split.
  { pose proof (length_trim (TaskForm.description fd)).
    destruct (trim (TaskForm.description fd)); simpl in *; lia. }
  split; [reflexivity|].
  split; [destruct (TaskForm.dueDate fd); reflexivity|].
  split; reflexivity.
Qed.

Lemma handleSubmit_valid_witness :
  fst (TaskFormHandlers.handleSubmit c4_parse 0 c4_now c1_env
         x_good_component [c6_task])
    = TaskFormHandlers.initialComponent
  /\ exists t,
       snd (TaskFormHandlers.handleSubmit c4_parse 0 c4_now c1_env
              x_good_component [c6_task]) = [c6_task] ++ [t]
       /\ Task.text t = lit "Buy milk".
Proof.
  destruct (handleSubmit_valid c4_parse 0 c4_now c1_env x_good_component
              [c6_task] eq_refl) as (Hc & t & Hts & Htext & _).
  split; [exact Hc|]. exists t. split; [exact Hts|]. exact Htext.
Defined.

Lemma handleInputChange_keys field value st :
  TaskForm.keys_length
    (TaskForm.errors (TaskFormHandlers.handleInputChange field value st))
  = TaskForm.keys_length (TaskForm.errors st).
Proof.
  unfold TaskFormHandlers.handleInputChange, TaskForm.keys_length.
  cbn [TaskForm.errors].
  destruct (TaskForm.errors st) as [et ed edu es].
  destruct field; cbn [TaskFormHandlers.error_at TaskForm.err_text
    TaskForm.err_description TaskForm.err_dueDate]; try reflexivity.
  - destruct et as [[|x m]|]; reflexivity.
  - destruct ed as [[|x m]|]; destruct et; reflexivity.
  - destruct edu as [[|x m]|]; destruct et, ed; reflexivity.
Qed.

Lemma edit_keys edits : forall c,
  TaskForm.keys_length (TaskForm.errors (TaskFormHandlers.state (edit edits c)))
  = TaskForm.keys_length (TaskForm.errors (TaskFormHandlers.state c)).
Proof.
  unfold edit. induction edits as [|e edits IH]; intros c; simpl;
    [reflexivity|].
  rewrite IH. cbn [TaskFormHandlers.state]. apply handleInputChange_keys.
Qed.

(** [handleInputChange] never removes a key from the errors: the number of
    keys stays the same.  On the edited field a recorded message is
    replaced by the empty string; the messages of the other fields are
    untouched. *)
Theorem handleInputChange_blanks (field : TaskFormHandlers.Field)
    (value : jsstring) (st : TaskForm.State) :
  let st' := TaskFormHandlers.handleInputChange field value st in
  TaskForm.keys_length (TaskForm.errors st')
    = TaskForm.keys_length (TaskForm.errors st)
  /\ (forall m, TaskFormHandlers.error_at (TaskForm.errors st') field = Some m
        -> m = [])
  /\ (TaskFormHandlers.error_at (TaskForm.errors st') field = None
      <-> TaskFormHandlers.error_at (TaskForm.errors st) field = None)
  /\ (forall f, f <> field ->
        TaskFormHandlers.error_at (TaskForm.errors st') f
        = TaskFormHandlers.error_at (TaskForm.errors st) f)
  /\ TaskForm.err_submit (TaskForm.errors st')
     = TaskForm.err_submit (TaskForm.errors st).
Proof.
  cbv zeta. split; [apply handleInputChange_keys|].
  unfold TaskFormHandlers.handleInputChange. cbn [TaskForm.errors].
  destruct (TaskForm.errors st) as [et ed edu es].
  destruct field; simpl.
  - destruct et as [[|x m]|]; simpl; repeat split; try congruence;
      intros [] ?; simpl; congruence.
  - destruct ed as [[|x m]|]; simpl; repeat split; try congruence;
      intros [] ?; simpl; congruence.
  - repeat split; try congruence.
  - destruct edu as [[|x m]|]; simpl; repeat split; try congruence;
      intros [] ?; simpl; congruence.
Qed.

(** After a submit that fails validation, the repository and the form data
    are unchanged, and the submit button is disabled; it stays disabled
    whatever the user types afterwards, since the edits blank the messages
    but keep their keys. *)
Theorem failed_submit_disables (Date_parse : jsstring -> option Z)
    (tz now : Z) (env : AddEnv) (c : TaskFormHandlers.Component)
    (tasks : list Task.t) (edits : list (TaskFormHandlers.Field * jsstring)) :
  fst (TaskForm.validateForm Date_parse tz now (TaskFormHandlers.state c))
    = false ->
  let r := TaskFormHandlers.handleSubmit Date_parse tz now env c tasks in
  snd r = tasks
  /\ TaskForm.formData (TaskFormHandlers.state (fst r))
     = TaskForm.formData (TaskFormHandlers.state c)
  /\ TaskFormHandlers.submitDisabled (edit edits (fst r)) = true.
Proof.
  intros Hinvalid. cbv zeta.
  pose proof (validateForm_false _ _ _ _ Hinvalid) as Hkeys.
  unfold TaskFormHandlers.handleSubmit.
  destruct (TaskForm.validateForm Date_parse tz now (TaskFormHandlers.state c))
    as [valid st'] eqn:Hv.
  simpl in Hinvalid, Hkeys. subst valid. simpl.
  split; [reflexivity|]. split.
  { unfold TaskForm.validateForm in Hv. injection Hv as _ <-. reflexivity. }
  unfold TaskFormHandlers.submitDisabled. rewrite edit_keys. simpl.
  apply Nat.ltb_lt in Hkeys. rewrite Hkeys. apply orb_true_r.
Qed.

Lemma failed_submit_disables_witness :
  TaskFormHandlers.submitDisabled
    (edit [(TaskFormHandlers.FDueDate, lit "2030-01-15")]
       (fst (TaskFormHandlers.handleSubmit c4_parse 0 c4_now c1_env
               x_past_component []))) = true.
Proof.
  apply (failed_submit_disables c4_parse 0 c4_now c1_env x_past_component []
           [(TaskFormHandlers.FDueDate, lit "2030-01-15")]).
  vm_compute. reflexivity.
Defined.

(** [handleClear] empties the form and the errors; the submit button is
    then disabled because the title is empty, and typing a title that is
    not blank enables it (unless a submit is under way). *)
Theorem handleClear_recovers (c : TaskFormHandlers.Component)
    (value : jsstring) :
  TaskFormHandlers.isSubmitting c = false -> trim value <> [] ->
  TaskFormHandlers.state (TaskFormHandlers.handleClear c)
    = TaskForm.mkState TaskFormHandlers.initialForm TaskForm.noErrors
  /\ TaskFormHandlers.submitDisabled (TaskFormHandlers.handleClear c) = true
  /\ TaskFormHandlers.submitDisabled
       (edit [(TaskFormHandlers.FText, value)] (TaskFormHandlers.handleClear c))
     = false.
Proof.
  intros Hsub Hval. split; [reflexivity|]. split; [reflexivity|].
  unfold TaskFormHandlers.submitDisabled. simpl.
  apply truthy_true in Hval. rewrite Hval, Hsub. reflexivity.
Qed.

Lemma handleClear_recovers_witness :
  TaskFormHandlers.submitDisabled
    (edit [(TaskFormHandlers.FText, lit "Buy milk")]
       (TaskFormHandlers.handleClear
          (fst (TaskFormHandlers.handleSubmit c4_parse 0 c4_now c1_env
                  x_past_component []))))
  = false.
Proof.
  apply (handleClear_recovers
           (fst (TaskFormHandlers.handleSubmit c4_parse 0 c4_now c1_env
                   x_past_component [])) (lit "Buy milk")).
  - reflexivity.
  - vm_compute. discriminate.
Defined.

Lemma length_padStart2 (n : Z) :
  1 <= n <= 99 -> length (TaskFormHandlers.padStart2 n) = 2%nat.
Proof.
  intros Hn. replace n with (Z.of_nat (Z.to_nat n)) by lia.
  assert (Hm : (1 <= Z.to_nat n <= 99)%nat) by lia.
  clear Hn. generalize dependent (Z.to_nat n). intros m Hm.
  do 100 (destruct m as [|m]; [try lia; vm_compute; reflexivity|]). lia.
Qed.

(** [getTodayDate] writes the month and the day with exactly two digits:
    for a month index from 0 to 11 and a day from 1 to 31 the result is the
    year, "-", two digits, "-", two digits. *)
Theorem getTodayDate_format (year month day : Z) :
  0 <= month <= 11 -> 1 <= day <= 31 ->
  exists mm dd,
    TaskFormHandlers.getTodayDate year month day
      = Number_toString year ++ lit "-" ++ mm ++ lit "-" ++ dd
    /\ length mm = 2%nat /\ length dd = 2%nat
    /\ length (TaskFormHandlers.getTodayDate year month day)
       = (length (Number_toString year) + 6)%nat.
Proof.
  intros Hm Hd.
  exists (TaskFormHandlers.padStart2 (month + 1)),
         (TaskFormHandlers.padStart2 day).
  pose proof (length_padStart2 (month + 1) ltac:(lia)) as H1.
  pose proof (length_padStart2 day ltac:(lia)) as H2.
  split; [reflexivity|]. split; [exact H1|]. split; [exact H2|].
  unfold TaskFormHandlers.getTodayDate.
  rewrite !length_app, H1, H2. simpl. lia.
Qed.

Lemma getTodayDate_format_witness :
  exists mm dd,
    TaskFormHandlers.getTodayDate 2023 10 4
      = Number_toString 2023 ++ lit "-" ++ mm ++ lit "-" ++ dd
    /\ length mm = 2%nat /\ length dd = 2%nat
    /\ length (TaskFormHandlers.getTodayDate 2023 10 4)
       = (length (Number_toString 2023) + 6)%nat.
Proof. apply getTodayDate_format; lia. Defined.

Example getTodayDate_ex :
  TaskFormHandlers.getTodayDate 2023 10 4 = lit "2023-11-04".
Proof. reflexivity. Qed.

(** * Further properties of the list and of toggling *)

Lemma length_filter_le {A} (f : A -> bool) (l : list A) :
  (length (List.filter f l) <= length l)%nat.
Proof.
  induction l as [|x l IH]; simpl; [lia|]. destruct (f x); simpl; lia.
Qed.

Lemma filter_nil_iff {A} (f : A -> bool) (l : list A) :
  List.filter f l = [] <-> Forall (fun x => f x = false) l.
Proof.
  induction l as [|x l IH]; simpl.
  - split; [constructor|reflexivity].
  - destruct (f x) eqn:Hx.
    + split; [discriminate|]. intros H. apply Forall_cons in H as [H _].
      congruence.
    + rewrite IH. split; [intros; constructor; assumption|].
      intros H. apply Forall_cons in H as [_ H]. exact H.
Qed.

(** In "Showing n of m total tasks" [n] never exceeds [m], whatever the
    filter.  The empty state is shown under 'pending' exactly when every
    task is completed, under 'completed' exactly when no task is completed,
    and under any other filter exactly when there is no task at all. *)
Theorem taskList_shown (tasks : list Task.t) (filter : jsstring) :
  (fst (TaskList.showing tasks filter) <= snd (TaskList.showing tasks filter))%nat
  /\ (TaskList.showsEmptyState tasks (lit "pending") = true
      <-> Forall is_completed tasks)
  /\ (TaskList.showsEmptyState tasks (lit "completed") = true
      <-> Forall is_pending tasks)
  /\ (filter <> lit "pending" -> filter <> lit "completed" ->
      (TaskList.showsEmptyState tasks filter = true <-> tasks = [])).
Proof.
  unfold TaskList.showing, TaskList.showsEmptyState, TaskList.filteredTasks.
  split; [|split; [|split]].
  - simpl. unfold getFilteredTasks.
    destruct (str_eqb filter (lit "completed")); [apply length_filter_le|].
    destruct (str_eqb filter (lit "pending")); [apply length_filter_le|].
    lia.
  - change (getFilteredTasks tasks (lit "pending"))
      with (List.filter (fun t => negb (Task.completed t)) tasks).
    rewrite Nat.eqb_eq, length_zero_iff_nil, filter_nil_iff.
    apply Forall_iff. intros t. unfold is_completed.
    destruct (Task.completed t); simpl; split; congruence.
  - change (getFilteredTasks tasks (lit "completed"))
      with (List.filter Task.completed tasks).
    rewrite Nat.eqb_eq, length_zero_iff_nil, filter_nil_iff.
    reflexivity.
  - intros Hp Hc. unfold getFilteredTasks.
    apply str_eqb_neq in Hp, Hc. rewrite Hc, Hp.
    rewrite Nat.eqb_eq. apply length_zero_iff_nil.
Qed.

Lemma taskList_shown_witness :
  TaskList.showsEmptyState [c6_task; c6_pending] (lit "all") = true
  <-> [c6_task; c6_pending] = [].
Proof.
  apply (proj2 (proj2 (proj2 (taskList_shown [c6_task; c6_pending] (lit "all")))));
    vm_compute; discriminate.
Defined.

Lemma toggled_thrice now t :
  toggled now (toggled now (toggled now t)) = toggled now t.
Proof.
  unfold toggled; simpl. destruct (Task.completed t); reflexivity.
Qed.

(** With the clock held at [now], three [toggleTask(id)] calls give the
    same collection as one; and after a [toggleTask(id)] every task with
    that id has [completedAt] present exactly when it is completed,
    whatever its fields were before. *)
Theorem toggleTask_thrice (now id : Z) (ts : list Task.t) :
  toggleTask now id (toggleTask now id (toggleTask now id ts))
    = toggleTask now id ts
  /\ Forall (fun t => Task.id t = id -> completion_consistent t)
            (toggleTask now id ts).
Proof.
  unfold toggleTask. split.
  - rewrite !map_map. apply map_ext. intros t.
    destruct (Task.id t =? id) eqn:Hid; simpl; rewrite ?Hid; simpl;
      rewrite ?Hid; [apply toggled_thrice | reflexivity].
  - apply Forall_forall. intros t' Hin. apply list_elem_of_In in Hin.
    apply in_map_iff in Hin as (t & <- & _).
    destruct (Z.eqb_spec (Task.id t) id) as [_|Hne].
    + intros _. apply toggled_consistent.
    + intros Heq. contradiction.
Qed.
